(** * The markdown guideline parser of mcp-typescript-assistant

    A shallow embedding of [internal/guidelines/parser.go] together with
    the record types of [pkg/types/typescript.go] it fills in, and the
    properties of the section splitter, the per-section extractor, the
    orchestration function and the validator.  The analyzer's two
    functions that consume a parsed set, [applyGuidelines] and
    [generateImprovementSummary], are embedded as well.

    Go strings are byte sequences; they are modelled by [string], whose
    characters are the 256 byte values. *)

From Stdlib Require Import String Ascii List Bool Arith Lia DecimalString.
Import ListNotations.
Open Scope string_scope.
Open Scope list_scope.

(** ** Byte constants *)

Definition NL : ascii := "010"%char.
Definition nl : string := String NL "".

(** ** The functions of Go's [strings] package used by the parser *)

Module strings.

(** [strings.HasPrefix(s, prefix)]. *)
Definition HasPrefix (s pre : string) : bool := String.prefix pre s.

(** [strings.Contains(s, substr)]: [substr] occurs at some offset of [s]. *)
Fixpoint Contains (s substr : string) : bool :=
  String.prefix substr s ||
  match s with
  | EmptyString => false
  | String _ s' => Contains s' substr
  end.

(** [strings.Split(s, sep)] for a one-byte separator, the only way the
    parser calls it ([sep] is the newline).  The result is never empty:
    a string without separator is returned as its only element. *)
Fixpoint Split (s : string) (sep : ascii) : list string :=
  match s with
  | EmptyString => [EmptyString]
  | String c s' =>
      if Ascii.eqb c sep then EmptyString :: Split s' sep
      else match Split s' sep with
           | h :: t => String c h :: t
           | [] => [String c EmptyString]
           end
  end.

(** *** [strings.TrimSpace]

    White space is what [unicode.IsSpace] accepts: the six ASCII
    characters below and, UTF-8 encoded, U+0085, U+00A0, U+1680,
    U+2000..U+200A, U+2028, U+2029, U+202F, U+205F and U+3000.  A byte
    that starts no valid encoding decodes to the replacement rune, which
    is not white space, so trimming stops there. *)

Definition asciiSpace (c : ascii) : bool :=
  match nat_of_ascii c with
  | 9 | 10 | 11 | 12 | 13 | 32 => true
  | _ => false
  end.

(** Two-byte encodings: C2 85 and C2 A0. *)
Definition space2 (c1 c2 : ascii) : bool :=
  Nat.eqb (nat_of_ascii c1) 194 &&
  (Nat.eqb (nat_of_ascii c2) 133 || Nat.eqb (nat_of_ascii c2) 160).

(** Three-byte encodings: E1 9A 80, E2 80 80..8A, E2 80 A8, E2 80 A9,
    E2 80 AF, E2 81 9F, E3 80 80. *)
Definition space3 (c1 c2 c3 : ascii) : bool :=
  let b1 := nat_of_ascii c1 in
  let b2 := nat_of_ascii c2 in
  let b3 := nat_of_ascii c3 in
  (Nat.eqb b1 225 && Nat.eqb b2 154 && Nat.eqb b3 128) ||
  (Nat.eqb b1 226 && Nat.eqb b2 128 &&
     ((Nat.leb 128 b3 && Nat.leb b3 138) ||
      Nat.eqb b3 168 || Nat.eqb b3 169 || Nat.eqb b3 175)) ||
  (Nat.eqb b1 226 && Nat.eqb b2 129 && Nat.eqb b3 159) ||
  (Nat.eqb b1 227 && Nat.eqb b2 128 && Nat.eqb b3 128).

(** Drops white-space runes from the front.  With [fwd = false] the
    string is read back to front (it is a reversed string), so the bytes
    of a rune arrive last byte first. *)
Fixpoint trimFront (fwd : bool) (s : string) : string :=
  match s with
  | EmptyString => EmptyString
  | String c1 t1 =>
      if asciiSpace c1 then trimFront fwd t1
      else
        match t1 with
        | EmptyString => s
        | String c2 t2 =>
            if (if fwd then space2 c1 c2 else space2 c2 c1)
            then trimFront fwd t2
            else
              match t2 with
              | EmptyString => s
              | String c3 t3 =>
                  if (if fwd then space3 c1 c2 c3 else space3 c3 c2 c1)
                  then trimFront fwd t3
                  else s
              end
        end
  end.

Definition reverse (s : string) : string :=
  string_of_list_ascii (List.rev (list_ascii_of_string s)).

Definition TrimLeft (s : string) : string := trimFront true s.
Definition TrimRight (s : string) : string :=
  reverse (trimFront false (reverse s)).

(** Left trimming first, then right trimming of what is left, as
    [TrimFunc] does. *)
Definition TrimSpace (s : string) : string := TrimRight (TrimLeft s).

End strings.

(** ** The compiled patterns of [NewParser]

    The patterns are anchored at both ends, so a match starts at offset 0
    and there is exactly one capture group.  Go's [\s] is the ASCII class
    [\t\n\f\r ] and [.] is any character but the newline.  Each function
    follows the pattern with the priorities of a backtracking matcher
    (greedy repetition first), which is what Go's leftmost-first semantics
    returns for the submatch. *)

Module regexp.

(** Perl class [\s]. *)
Definition isSpace (c : ascii) : bool :=
  match nat_of_ascii c with
  | 9 | 10 | 12 | 13 | 32 => true
  | _ => false
  end.

(** [(.+)$] : the whole rest, non-empty and free of newlines. *)
Fixpoint noNewline (s : string) : bool :=
  match s with
  | EmptyString => true
  | String c s' => negb (Ascii.eqb c NL) && noNewline s'
  end.

Definition dotPlusEnd (s : string) : option string :=
  match s with
  | EmptyString => None
  | String _ _ => if noNewline s then Some s else None
  end.

(** [\s+(.+)$] : after one white-space character, first try to extend
    the white-space run, then fall back to the capture group. *)
Fixpoint spacesThenText (s : string) : option string :=
  match s with
  | EmptyString => None
  | String c s' =>
      if isSpace c then
        match spacesThenText s' with
        | Some cap => Some cap
        | None => dotPlusEnd s'
        end
      else None
  end.

(** [^#+\s+(.+)$] *)
Fixpoint hashesThenRest (s : string) : option string :=
  match s with
  | EmptyString => None
  | String c s' =>
      if Ascii.eqb c "#"%char then
        match hashesThenRest s' with
        | Some cap => Some cap
        | None => spacesThenText s'
        end
      else None
  end.

(** [headerRegex.FindStringSubmatch(s)]: [Some cap] stands for the two
    element slice [[s; cap]], [None] for the nil slice. *)
Definition headerRegex_FindStringSubmatch (s : string) : option string :=
  hashesThenRest s.

(** [headerRegex.MatchString(s)] *)
Definition headerRegex_MatchString (s : string) : bool :=
  match headerRegex_FindStringSubmatch s with
  | Some _ => true
  | None => false
  end.

(** [^[\*\-\+]\s+(.+)$] *)
Definition listRegex_FindStringSubmatch (s : string) : option string :=
  match s with
  | EmptyString => None
  | String c s' =>
      if Ascii.eqb c "*"%char || Ascii.eqb c "-"%char || Ascii.eqb c "+"%char
      then spacesThenText s'
      else None
  end.

End regexp.

(** ** [pkg/types]: the guideline records *)

Module GuidelineExample.
Record t : Set := mk
  { Title : string;
    Good : string;
    Bad : string;
    Explanation : string }.

(** The zero value but for the title: [&types.GuidelineExample{Title: x}] *)
Definition withTitle (x : string) : t := mk x "" "" "".
End GuidelineExample.

Module Guideline.
Record t : Set := mk
  { ID : string;
    Title : string;
    Description : string;
    Category : string;
    Priority : string;
    Examples : list GuidelineExample.t;
    Rules : list string }.
End Guideline.

Module GuidelineSet.
Record t : Set := mk
  { Name : string;
    Version : string;
    Description : string;
    Guidelines : list Guideline.t;
    LoadedAt : string }.
End GuidelineSet.

(** ** [splitIntoSections] *)

(** The loop state: the slice [sections] and the builder [currentSection]. *)
Record splitter : Set := mkSplitter
  { sections : list string;
    currentSection : string }.

(** [currentSection.Len() > 0] *)
Definition nonEmpty (s : string) : bool :=
  match s with
  | EmptyString => false
  | String _ _ => true
  end.

(** One iteration of the [for _, line := range lines] loop. *)
Definition splitLine (st : splitter) (line : string) : splitter :=
  let st1 :=
    if regexp.headerRegex_MatchString line && nonEmpty (currentSection st)
    then mkSplitter (sections st ++ [currentSection st]) ""
    else st in
  mkSplitter (sections st1) (currentSection st1 ++ line ++ nl).

Definition splitIntoSections (content : string) : list string :=
  let lines := strings.Split content NL in
  let st := fold_left splitLine lines (mkSplitter [] "") in
  if nonEmpty (currentSection st)
  then sections st ++ [currentSection st]
  else sections st.

(** Concatenation of a list of strings, in order. *)
Definition concatAll (l : list string) : string :=
  fold_right String.append "" l.

(** ** Formatting *)

(** [%d] of [fmt.Sprintf] on a non-negative integer.  Section ordinals and
    guideline positions are [i+1] for a slice index [i], so they are
    positive and stay below the capacity of Go's [int]. *)
Definition itoa (n : nat) : string := NilZero.string_of_uint (Nat.to_uint n).

(** [s == ""] *)
Definition isEmpty (s : string) : bool := negb (nonEmpty s).

(** ** Field updates of the records (Go assigns to fields in place) *)

Definition setGood (e : GuidelineExample.t) (v : string) : GuidelineExample.t :=
  GuidelineExample.mk (GuidelineExample.Title e) v
    (GuidelineExample.Bad e) (GuidelineExample.Explanation e).

Definition setBad (e : GuidelineExample.t) (v : string) : GuidelineExample.t :=
  GuidelineExample.mk (GuidelineExample.Title e) (GuidelineExample.Good e)
    v (GuidelineExample.Explanation e).

Definition setExplanation (e : GuidelineExample.t) (v : string)
  : GuidelineExample.t :=
  GuidelineExample.mk (GuidelineExample.Title e) (GuidelineExample.Good e)
    (GuidelineExample.Bad e) v.

Definition setHeading (g : Guideline.t) (title category priority : string)
  : Guideline.t :=
  Guideline.mk (Guideline.ID g) title (Guideline.Description g)
    category priority (Guideline.Examples g) (Guideline.Rules g).

Definition setDescription (g : Guideline.t) (v : string) : Guideline.t :=
  Guideline.mk (Guideline.ID g) (Guideline.Title g) v
    (Guideline.Category g) (Guideline.Priority g)
    (Guideline.Examples g) (Guideline.Rules g).

Definition appendExample (g : Guideline.t) (e : GuidelineExample.t)
  : Guideline.t :=
  Guideline.mk (Guideline.ID g) (Guideline.Title g) (Guideline.Description g)
    (Guideline.Category g) (Guideline.Priority g)
    (Guideline.Examples g ++ [e]) (Guideline.Rules g).

Definition appendRule (g : Guideline.t) (rule : string) : Guideline.t :=
  Guideline.mk (Guideline.ID g) (Guideline.Title g) (Guideline.Description g)
    (Guideline.Category g) (Guideline.Priority g)
    (Guideline.Examples g) (Guideline.Rules g ++ [rule]).

(** The state of the scan of [parseSection]: the guideline under
    construction and the three local variables of the loop.
    [currentExample] is a pointer that is nil or owned by the loop alone;
    it is copied by value when appended to [Examples]. *)
Record scan : Set := mkScan
  { guideline : Guideline.t;
    currentContent : string;
    inCodeBlock : bool;
    currentExample : option GuidelineExample.t }.

Definition fence : string := "```".

(** [if currentExample != nil && (currentExample.Good != "" ||
    currentExample.Bad != "") { guideline.Examples = append(...) }],
    which the source has twice: at an example header and after the loop. *)
Definition flushExample (cur : option GuidelineExample.t) (g : Guideline.t)
  : Guideline.t :=
  match cur with
  | Some e =>
      if nonEmpty (GuidelineExample.Good e) || nonEmpty (GuidelineExample.Bad e)
      then appendExample g e
      else g
  | None => g
  end.

Section Parser.

(** [strings.ToLower].  On a string of ASCII bytes Go maps 'A'..'Z' to
    'a'..'z'; any other string goes rune by rune through the Unicode
    case tables, which are not part of this repository.  The parser is
    therefore parametric in the function; [asciiToLower] below is its
    restriction to ASCII, used to run the parser on ASCII documents. *)
Variable ToLower : string -> string.

Definition inferCategory (title : string) : string :=
  let titleLower := ToLower title in
  let has := strings.Contains titleLower in
  if has "type" || has "interface" then "typing"
  else if has "naming" || has "convention" then "naming"
  else if has "function" || has "method" then "functions"
  else if has "import" || has "export" then "modules"
  else if has "error" || has "exception" then "error_handling"
  else if has "async" || has "promise" then "async"
  else "general".

Definition inferPriority (title : string) : string :=
  let titleLower := ToLower title in
  let has := strings.Contains titleLower in
  if has "must" || has "required" || has "critical" || has "error"
  then "high"
  else if has "should" || has "recommend" then "medium"
  else if has "could" || has "consider" || has "style" || has "formatting"
  then "low"
  else "medium".

(** The body of [if currentExample != nil] at the end of a code block:
    where the accumulated content goes. *)
Definition storeContent (content : string) (e : GuidelineExample.t)
  : GuidelineExample.t :=
  let title := ToLower (GuidelineExample.Title e) in
  if strings.Contains title "good" || strings.Contains title "correct" ||
     strings.Contains title "do"
  then setGood e (strings.TrimSpace content)
  else if strings.Contains title "bad" || strings.Contains title "incorrect" ||
          strings.Contains title "don't"
  then setBad e (strings.TrimSpace content)
  else e.

(** [strings.Contains(strings.ToLower(line), "example") || ... "good" ||
    ... "bad"] *)
Definition mentionsExample (line : string) : bool :=
  strings.Contains (ToLower line) "example" ||
  strings.Contains (ToLower line) "good" ||
  strings.Contains (ToLower line) "bad".

(** One iteration of [for _, line := range lines] in [parseSection]. *)
Definition scanLine (st : scan) (rawLine : string) : scan :=
  let line := strings.TrimSpace rawLine in
  let g := guideline st in
  match regexp.headerRegex_FindStringSubmatch line with
  | Some title =>
      (* Parse headers *)
      if isEmpty (Guideline.Title g)
      then mkScan
             (setHeading g title (inferCategory title) (inferPriority title))
             (currentContent st) (inCodeBlock st) (currentExample st)
      else st
  | None =>
      if strings.HasPrefix line fence then
        (* Parse code blocks *)
        if inCodeBlock st
        then mkScan g "" false
               (option_map (storeContent (currentContent st))
                           (currentExample st))
        else mkScan g (currentContent st) true
               (match currentExample st with
                | None => Some (GuidelineExample.withTitle "Code Example")
                | Some e => Some e
                end)
      else if inCodeBlock st then
        mkScan g (currentContent st ++ line ++ nl) true (currentExample st)
      else
        match regexp.listRegex_FindStringSubmatch line with
        | Some item =>
            (* Parse list items as rules *)
            mkScan (appendRule g (strings.TrimSpace item))
              (currentContent st) (inCodeBlock st) (currentExample st)
        | None =>
            if mentionsExample line then
              (* Parse example headers *)
              mkScan (flushExample (currentExample st) g)
                (currentContent st) (inCodeBlock st)
                (Some (GuidelineExample.withTitle line))
            else
              (* Accumulate description *)
              if nonEmpty line && isEmpty (Guideline.Description g) then
                mkScan (setDescription g line)
                  (currentContent st) (inCodeBlock st) (currentExample st)
              else
                match currentExample st with
                | Some e =>
                    if nonEmpty line && isEmpty (GuidelineExample.Explanation e)
                    then mkScan g (currentContent st) (inCodeBlock st)
                           (Some (setExplanation e line))
                    else st
                | None => st
                end
        end
  end.

(** The state before the first line: the guideline literal of the source
    (only [ID] and [Priority] are given, the rest is the zero value). *)
Definition initScan (id : nat) : scan :=
  mkScan (Guideline.mk ("guideline_" ++ itoa id) "" "" "" "medium" [] [])
    "" false None.

(** What follows the loop: the final example and the description. *)
Definition finishScan (st : scan) : Guideline.t :=
  let g := flushExample (currentExample st) (guideline st) in
  if isEmpty (Guideline.Description g) && nonEmpty (Guideline.Title g)
  then setDescription g (Guideline.Title g)
  else g.

(** [parseSection]; [None] is the nil pointer. *)
Definition parseSection (section : string) (id : nat) : option Guideline.t :=
  let lines := strings.Split section NL in
  if Nat.eqb (List.length lines) 0 then None
  else Some (finishScan (fold_left scanLine lines (initScan id))).

(** The loop of [parseContent]: [i] is the index of the head of
    [sections], [guidelines] the slice built so far. *)
Fixpoint parseContentLoop (i : nat) (sections : list string)
    (guidelines : list Guideline.t) : list Guideline.t :=
  match sections with
  | [] => guidelines
  | section :: rest =>
      parseContentLoop (S i) rest
        (match parseSection section (i + 1) with
         | Some g => guidelines ++ [g]
         | None => guidelines
         end)
  end.

Definition parseContent (content : string) : list Guideline.t :=
  parseContentLoop 0 (splitIntoSections content) [].

(** [ParseGuidelines].  [now] is [time.Now().Format(time.RFC3339)], the
    reading of the clock.  The result is Go's pair of a pointer and an
    error, each possibly nil. *)
Definition ParseGuidelines (now content name guidelineType : string)
  : option GuidelineSet.t * option string :=
  let guidelineType :=
    if isEmpty guidelineType then "general" else guidelineType in
  let guidelineSet :=
    GuidelineSet.mk name "1.0.0" (guidelineType ++ " coding guidelines")
      (parseContent content) now in
  (Some guidelineSet, None).

End Parser.

(** [strings.ToLower] on ASCII-only strings. *)
Definition lowerByte (c : ascii) : ascii :=
  let n := nat_of_ascii c in
  if Nat.leb 65 n && Nat.leb n 90 then ascii_of_nat (n + 32) else c.

Fixpoint asciiToLower (s : string) : string :=
  match s with
  | EmptyString => EmptyString
  | String c s' => String (lowerByte c) (asciiToLower s')
  end.

(** ** [ValidateGuidelines] *)

(** The body of [for i, guideline := range guidelineSet.Guidelines]. *)
Definition validateGuideline (warnings : list string) (i : nat)
    (g : Guideline.t) : list string :=
  let w1 :=
    if isEmpty (Guideline.Title g)
    then warnings ++ [("Guideline " ++ itoa (i + 1) ++ " has no title")%string]
    else warnings in
  let w2 :=
    if isEmpty (Guideline.Description g)
    then w1 ++ [("Guideline " ++ itoa (i + 1) ++ " (" ++ Guideline.Title g ++
                 ") has no description")%string]
    else w1 in
  if Nat.eqb (List.length (Guideline.Rules g)) 0 &&
     Nat.eqb (List.length (Guideline.Examples g)) 0
  then w2 ++ [("Guideline " ++ itoa (i + 1) ++ " (" ++ Guideline.Title g ++
               ") has no rules or examples")%string]
  else w2.

Fixpoint validateLoop (i : nat) (guidelines : list Guideline.t)
    (warnings : list string) : list string :=
  match guidelines with
  | [] => warnings
  | g :: rest => validateLoop (S i) rest (validateGuideline warnings i g)
  end.

(** The validator receives a pointer to the set.  The first component of
    the result is the set the pointer refers to when the call returns,
    the second the returned slice of warnings. *)
Definition ValidateGuidelines (guidelineSet : GuidelineSet.t)
  : GuidelineSet.t * list string :=
  let w0 : list string := [] in
  let w1 :=
    if isEmpty (GuidelineSet.Name guidelineSet)
    then w0 ++ ["Guideline set name is empty"] else w0 in
  let w2 :=
    if Nat.eqb (List.length (GuidelineSet.Guidelines guidelineSet)) 0
    then w1 ++ ["No guidelines found in the set"] else w1 in
  (guidelineSet, validateLoop 0 (GuidelineSet.Guidelines guidelineSet) w2).


(** ** Vocabulary of the statements *)

(** The values the spec enumerates for the two inferred fields. *)
Definition priorities : list string := ["high"; "medium"; "low"].

Definition categories : list string :=
  ["typing"; "naming"; "functions"; "modules"; "error_handling"; "async";
   "general"].

(** The priority is enumerated from the start; the category is empty
    until a heading sets it along with the title. *)
Definition inferred (g : Guideline.t) : Prop :=
  In (Guideline.Priority g) priorities /\
  (In (Guideline.Category g) categories \/
   (Guideline.Category g = "" /\ Guideline.Title g = "")).

(** The section ordinals: each section paired with its 0-based position. *)
Definition numbered (sections : list string) : list (nat * string) :=
  combine (seq 0 (List.length sections)) sections.

(** What one numbered section contributes to the result of
    [parseContent]: the guideline parsed under the ordinal of the section,
    or nothing. *)
Definition emitted (ToLower : string -> string) (p : nat * string)
  : list Guideline.t :=
  match parseSection ToLower (snd p) (fst p + 1) with
  | Some g => [g]
  | None => []
  end.

(** The two code fields of an example. *)
Inductive field : Set := FGood | FBad.

Definition getField (f : field) (e : GuidelineExample.t) : string :=
  match f with
  | FGood => GuidelineExample.Good e
  | FBad => GuidelineExample.Bad e
  end.

(** The lines that follow an example header, cut into complete fenced
    blocks and the lines between them. *)
Inductive chunk : Set :=
| Block (opening : string) (body : list string) (closing : string)
| Outside (line : string).

Definition chunkLines (c : chunk) : list string :=
  match c with
  | Block opening body closing => opening :: body ++ [closing]
  | Outside line => [line]
  end.

Definition isFence (rawLine : string) : bool :=
  strings.HasPrefix (strings.TrimSpace rawLine) fence.

Definition isHeading (rawLine : string) : bool :=
  regexp.headerRegex_MatchString (strings.TrimSpace rawLine).

Definition isListItem (rawLine : string) : bool :=
  match regexp.listRegex_FindStringSubmatch (strings.TrimSpace rawLine) with
  | Some _ => true
  | None => false
  end.

(** What a complete block accumulates between its fences: every body
    line, trimmed and newline terminated, but for the lines the heading
    pattern matches (the scan tests for headings first). *)
Definition blockContent (body : list string) : string :=
  concatAll
    (map (fun l => (strings.TrimSpace l ++ nl)%string)
         (filter (fun l => negb (isHeading l)) body)).

Section Classification.

Variable ToLower : string -> string.

(** The field the closing fence writes, as the spec words it: good for
    a title with "good", "correct" or "do"; otherwise bad for a title
    with "bad", "incorrect" or "don't"; otherwise none. *)
Definition classify (title : string) : option field :=
  let t := ToLower title in
  if strings.Contains t "good" || strings.Contains t "correct" ||
     strings.Contains t "do"
  then Some FGood
  else if strings.Contains t "bad" || strings.Contains t "incorrect" ||
          strings.Contains t "don't"
  then Some FBad
  else None.

(** A line that, met outside a code block, starts a new example. *)
Definition isExampleHeader (rawLine : string) : bool :=
  negb (isHeading rawLine) && negb (isFence rawLine) &&
  negb (isListItem rawLine) &&
  mentionsExample ToLower (strings.TrimSpace rawLine).

(** Complete blocks have a fence at both ends and none inside; a line
    between blocks is neither a fence nor an example header. *)
Definition wellFormed (c : chunk) : bool :=
  match c with
  | Block opening body closing =>
      isFence opening && isFence closing &&
      forallb (fun l => negb (isFence l)) body
  | Outside line => negb (isFence line) && negb (isExampleHeader line)
  end.

End Classification.

(** *** States of the two loops *)

(** What the loop has written so far, whatever the cuts. *)
Definition written (st : splitter) : string :=
  concatAll (sections st) ++ currentSection st.

(** An example with a non-empty good or bad field. *)
Definition filled (e : GuidelineExample.t) : Prop :=
  GuidelineExample.Good e <> "" \/ GuidelineExample.Bad e <> "".

(** The scan is outside a code block, with an empty accumulator, and the
    example in progress has the given title. *)
Definition between (title : string) (st : scan) : Prop :=
  inCodeBlock st = false /\ currentContent st = "" /\
  exists e, currentExample st = Some e /\ GuidelineExample.Title e = title.

(** The accumulator is empty whenever the scan is outside a block. *)
Definition idle (st : scan) : Prop :=
  inCodeBlock st = false -> currentContent st = "".

(** The validator's result as the spec words it. *)
Definition guidelineWarnings (n : nat) (g : Guideline.t) : list string :=
  (if isEmpty (Guideline.Title g)
   then [("Guideline " ++ itoa n ++ " has no title")%string] else []) ++
  (if isEmpty (Guideline.Description g)
   then [("Guideline " ++ itoa n ++ " (" ++ Guideline.Title g ++
          ") has no description")%string] else []) ++
  (match Guideline.Rules g, Guideline.Examples g with
   | [], [] => [("Guideline " ++ itoa n ++ " (" ++ Guideline.Title g ++
                 ") has no rules or examples")%string]
   | _, _ => []
   end).

Fixpoint perGuideline (n : nat) (guidelines : list Guideline.t) : list string :=
  match guidelines with
  | [] => []
  | g :: rest => guidelineWarnings n g ++ perGuideline (S n) rest
  end.

Definition expectedWarnings (gs : GuidelineSet.t) : list string :=
  (if String.eqb (GuidelineSet.Name gs) "" then ["Guideline set name is empty"]
   else []) ++
  (match GuidelineSet.Guidelines gs with
   | [] => ["No guidelines found in the set"]
   | _ :: _ => []
   end) ++
  perGuideline 1 (GuidelineSet.Guidelines gs).

(** ** [readFileContent]

    The [bufio.Scanner] is the reader of the file; the model takes what
    it delivers: [tokens], the texts of the successive [scanner.Scan()]
    calls that return true, and [scanErr], the value of [scanner.Err()]
    after the loop ([None] is nil).  The result is Go's pair of the
    content and the error. *)
Definition readFileContent (tokens : list string) (scanErr : option string)
  : string * option string :=
  let content :=
    fold_left (fun builder text => (builder ++ text ++ nl)%string) tokens ""
  in
  match scanErr with
  | Some err => ("", Some err)
  | None => (content, None)
  end.

(** ** The analyzer's use of loaded guidelines
       ([applyGuidelines], [generateImprovementSummary]) *)

Module Improvement.
(** [Kind] is the field [Type] of the Go struct. *)
Record t : Set := mk
  { Kind : string;
    Description : string;
    Before : string;
    After : string;
    Reasoning : string;
    Priority : string;
    GuidelineRef : string }.
End Improvement.

(** The improvement literal of [applyGuidelines]; [Before] and [After]
    keep their zero value. *)
Definition guidelineImprovement (guidelineSet : GuidelineSet.t)
    (guideline : Guideline.t) : Improvement.t :=
  Improvement.mk "guideline" (Guideline.Description guideline) "" ""
    ("According to " ++ GuidelineSet.Name guidelineSet ++ " guidelines")
    (Guideline.Priority guideline) (Guideline.ID guideline).

(** The body of [for _, rule := range guideline.Rules]. *)
Definition applyRule (code : string) (guidelineSet : GuidelineSet.t)
    (guideline : Guideline.t) (improvements : list Improvement.t)
    (rule : string) : list Improvement.t :=
  if strings.Contains code rule
  then improvements ++ [guidelineImprovement guidelineSet guideline]
  else improvements.

Definition applyGuidelines (code : string) (guidelineSet : GuidelineSet.t)
  : list Improvement.t :=
  fold_left
    (fun improvements guideline =>
       fold_left (applyRule code guidelineSet guideline)
         (Guideline.Rules guideline) improvements)
    (GuidelineSet.Guidelines guidelineSet) [].

(** The three counters of [generateImprovementSummary]. *)
Record tally : Set := mkTally
  { highPriority : nat;
    mediumPriority : nat;
    lowPriority : nat }.

(** The [switch improvement.Priority] of the counting loop. *)
Definition countPriority (t : tally) (improvement : Improvement.t) : tally :=
  let p := Improvement.Priority improvement in
  if String.eqb p "high"
  then mkTally (highPriority t + 1) (mediumPriority t) (lowPriority t)
  else if String.eqb p "medium"
  then mkTally (highPriority t) (mediumPriority t + 1) (lowPriority t)
  else if String.eqb p "low"
  then mkTally (highPriority t) (mediumPriority t) (lowPriority t + 1)
  else t.

Definition tallyPriorities (improvements : list Improvement.t) : tally :=
  fold_left countPriority improvements (mkTally 0 0 0).

Definition generateImprovementSummary (improvements : list Improvement.t)
  : string :=
  if Nat.eqb (List.length improvements) 0
  then "No improvements suggested. Code follows TypeScript best practices."
  else
    let t := tallyPriorities improvements in
    ("Found " ++ itoa (List.length improvements) ++
     " improvement suggestions: " ++ itoa (highPriority t) ++
     " high priority, " ++ itoa (mediumPriority t) ++
     " medium priority, " ++ itoa (lowPriority t) ++ " low priority")%string.

(** ** Further vocabulary *)

(** Every line written back with its newline. *)
Definition unlines (lines : list string) : string :=
  concatAll (map (fun l => (l ++ nl)%string) lines).

(** The heading test of the splitter, on the line as it stands. *)
Definition splitsHere (line : string) : bool :=
  regexp.headerRegex_MatchString line.

(** The splitter seen on lines: the finished groups of lines and the
    group being filled. *)
Definition groupLine (st : list (list string) * list string) (line : string)
  : list (list string) * list string :=
  match snd st with
  | _ :: _ =>
      if splitsHere line then (fst st ++ [snd st], [line])
      else (fst st, snd st ++ [line])
  | [] => (fst st, [line])
  end.

(** A group of lines as the splitter forms them: not empty, made of
    lines without newline, with no heading after its first line. *)
Definition okGroup (g : list string) : Prop :=
  g <> [] /\ Forall (fun l => regexp.noNewline l = true) g /\
  Forall (fun l => splitsHere l = false) (tl g).

(** A group that opens with a heading line. *)
Definition headed (g : list string) : Prop :=
  splitsHere (hd "" g) = true.

(** The invariant of the splitter's loop on groups. *)
Definition grouped (st : list (list string) * list string) : Prop :=
  Forall okGroup (fst st) /\ (snd st = [] \/ okGroup (snd st)) /\
  Forall headed (tl (fst st)) /\ (fst st <> [] -> headed (snd st)).

(** What a heading line decides of a guideline. *)
Definition headingOf (g : Guideline.t) : string * string * string :=
  (Guideline.Title g, Guideline.Category g, Guideline.Priority g).

(** A guideline either has no title, no category and the default
    priority, or has a title and enumerated category and priority. *)
Definition titled (g : Guideline.t) : Prop :=
  headingOf g = ("", "", "medium") \/
  (Guideline.Title g <> "" /\ In (Guideline.Category g) categories /\
   In (Guideline.Priority g) priorities).

(** The rule a list line contributes. *)
Definition ruleOf (rawLine : string) : string :=
  match regexp.listRegex_FindStringSubmatch (strings.TrimSpace rawLine) with
  | Some item => strings.TrimSpace item
  | None => ""
  end.

(** The example created by a fence that no example header precedes, with
    nothing stored in it. *)
Definition anonymous (cur : option GuidelineExample.t) : Prop :=
  match cur with
  | None => True
  | Some e =>
      GuidelineExample.Title e = "Code Example" /\
      GuidelineExample.Good e = "" /\ GuidelineExample.Bad e = ""
  end.

(** No example was recorded and the example in progress, if any, is the
    one a fence creates, with nothing stored. *)
Definition unlabelled (st : scan) : Prop :=
  Guideline.Examples (guideline st) = [] /\ anonymous (currentExample st).

(** What [applyGuidelines] reports for one guideline: one improvement
    for each of its rules that occurs in the code. *)
Definition reported (code : string) (gs : GuidelineSet.t) (g : Guideline.t)
  : list Improvement.t :=
  map (fun _ => guidelineImprovement gs g)
      (filter (strings.Contains code) (Guideline.Rules g)).

(** The improvements the summary puts in one of its three classes. *)
Definition knownPriority (imp : Improvement.t) : bool :=
  String.eqb (Improvement.Priority imp) "high" ||
  String.eqb (Improvement.Priority imp) "medium" ||
  String.eqb (Improvement.Priority imp) "low".

Definition classified (t : tally) : nat :=
  highPriority t + mediumPriority t + lowPriority t.

(** One step of [trimFront]: the string without its leading white-space
    rune, if it has one. *)
Definition stripRune (fwd : bool) (s : string) : option string :=
  match s with
  | EmptyString => None
  | String c1 t1 =>
      if strings.asciiSpace c1 then Some t1
      else
        match t1 with
        | EmptyString => None
        | String c2 t2 =>
            if (if fwd then strings.space2 c1 c2 else strings.space2 c2 c1)
            then Some t2
            else
              match t2 with
              | EmptyString => None
              | String c3 t3 =>
                  if (if fwd then strings.space3 c1 c2 c3
                      else strings.space3 c3 c2 c1)
                  then Some t3
                  else None
              end
        end
  end.

(** A line of plain text: not empty once trimmed, and neither heading,
    fence, list line nor example header. *)
Definition isPlainText (ToLower : string -> string) (rawLine : string)
  : bool :=
  negb (isHeading rawLine) && negb (isFence rawLine) &&
  negb (isListItem rawLine) &&
  negb (mentionsExample ToLower (strings.TrimSpace rawLine)) &&
  nonEmpty (strings.TrimSpace rawLine).


(** The text captured from the first of the lines that the heading
    pattern matches once trimmed. *)
Fixpoint firstHeading (lines : list string) : option string :=
  match lines with
  | [] => None
  | l :: rest =>
      match regexp.headerRegex_FindStringSubmatch (strings.TrimSpace l) with
      | Some title => Some title
      | None => firstHeading rest
      end
  end.

(** A guideline the validator has nothing to say about. *)
Definition complete (g : Guideline.t) : Prop :=
  Guideline.Title g <> "" /\ Guideline.Description g <> "" /\
  (Guideline.Rules g <> [] \/ Guideline.Examples g <> []).

(** ** Documents used below *)

(** The five-line document of the spec's test. *)
Definition namingDoc : string := "## Naming
### Bad Example
```bad code```
### Good Example
```good code```".

(** An example header worded "Don't", followed by one code block. *)
Definition dontDoc : string := "Don't Example
```
x
```".

(** Two code blocks under one example header. *)
Definition twoBlocksDoc : string := "Good example
```
first
```
```
second
```".

(** * Properties *)

Local Open Scope string_scope.

(** ** Strings *)

Lemma append_nil_r (s : string) : s ++ "" = s.
Proof. induction s as [|c s IH]; simpl; [reflexivity | now rewrite IH]. Qed.

Lemma append_assoc (a b c : string) : (a ++ b) ++ c = a ++ (b ++ c).
Proof. induction a as [|x a IH]; simpl; [reflexivity | now rewrite IH]. Qed.

Lemma concatAll_app (l1 l2 : list string) :
  concatAll (l1 ++ l2) = concatAll l1 ++ concatAll l2.
Proof.
  induction l1 as [|s l1 IH]; simpl; [reflexivity|].
  now rewrite IH, append_assoc.
Qed.

Lemma Split_not_nil (s : string) (sep : ascii) : strings.Split s sep <> [].
Proof.
  destruct s as [|c s]; simpl; [discriminate|].
  destruct (Ascii.eqb c sep); [discriminate|].
  destruct (strings.Split s sep); discriminate.
Qed.

(** Writing every line of [Split] back with its newline gives the text
    and one newline more. *)
Lemma Split_unlines (s : string) :
  concatAll (map (fun l => (l ++ nl)%string) (strings.Split s NL)) = s ++ nl.
Proof.
  induction s as [|c s IH]; simpl; [reflexivity|].
  destruct (Ascii.eqb_spec c NL) as [->|Hc].
  - simpl. now rewrite IH.
  - destruct (strings.Split s NL) as [|h t] eqn:E.
    + now destruct (Split_not_nil s NL).
    + simpl in *. now rewrite IH.
Qed.

(** ** The library functions and the patterns on small inputs *)

Example Split_trailing_newline :
  strings.Split ("a" ++ nl ++ "b" ++ nl) NL = ["a"; "b"; ""].
Proof. reflexivity. Qed.

Example Split_empty : strings.Split "" NL = [""].
Proof. reflexivity. Qed.

Example TrimSpace_both_ends :
  strings.TrimSpace ("  a b " ++ nl) = "a b".
Proof. reflexivity. Qed.

(** U+00A0 at the end is trimmed, a lone continuation byte is not. *)
Example TrimSpace_unicode :
  strings.TrimSpace
    ("x" ++ String (ascii_of_nat 194) (String (ascii_of_nat 160) "")) = "x" /\
  strings.TrimSpace ("x" ++ String (ascii_of_nat 160) "") =
    "x" ++ String (ascii_of_nat 160) "".
Proof. split; reflexivity. Qed.

Example headerRegex_capture :
  regexp.headerRegex_FindStringSubmatch "##   Title x" = Some "Title x".
Proof. reflexivity. Qed.

Example headerRegex_needs_space :
  regexp.headerRegex_FindStringSubmatch "#Title" = None /\
  regexp.headerRegex_FindStringSubmatch "# " = None.
Proof. split; reflexivity. Qed.

(** The white-space run gives back its last character to the group. *)
Example headerRegex_backtracks :
  regexp.headerRegex_FindStringSubmatch "#  " = Some " ".
Proof. reflexivity. Qed.

Example listRegex_capture :
  regexp.listRegex_FindStringSubmatch "- no-any" = Some "no-any" /\
  regexp.listRegex_FindStringSubmatch "-no-any" = None.
Proof. split; reflexivity. Qed.

(** ** The section splitter *)

Lemma splitLine_written (st : splitter) (line : string) :
  written (splitLine st line) = written st ++ line ++ nl.
Proof.
  unfold written, splitLine.
  destruct (regexp.headerRegex_MatchString line && _); simpl.
  - rewrite concatAll_app. simpl. now rewrite append_nil_r.
  - now rewrite append_assoc.
Qed.

Lemma splitLoop_written (lines : list string) (st : splitter) :
  written (fold_left splitLine lines st) =
  written st ++ concatAll (map (fun l => (l ++ nl)%string) lines).
Proof.
  revert st; induction lines as [|l lines IH]; intros st; simpl.
  - now rewrite append_nil_r.
  - rewrite IH, splitLine_written. now rewrite !append_assoc.
Qed.

Lemma nonEmpty_false (s : string) : nonEmpty s = false -> s = "".
Proof. destruct s; [reflexivity | discriminate]. Qed.

Lemma splitIntoSections_written (content : string) :
  concatAll (splitIntoSections content) =
  written (fold_left splitLine (strings.Split content NL) (mkSplitter [] "")).
Proof.
  unfold splitIntoSections, written.
  destruct (nonEmpty (currentSection _)) eqn:E.
  - rewrite concatAll_app. simpl. now rewrite append_nil_r.
  - apply nonEmpty_false in E. rewrite E. now rewrite append_nil_r.
Qed.

(** The sections concatenated in order are the input followed by one
    newline; the splitter writes a newline after every line of
    [strings.Split], the last one included. *)
Lemma splitIntoSections_concat (content : string) :
  concatAll (splitIntoSections content) = content ++ nl.
Proof.
  rewrite splitIntoSections_written, splitLoop_written.
  unfold written; simpl. apply Split_unlines.
Qed.

(** C1, as stated, fails on the one-line input [a]: the only section is
    [a] followed by a newline. *)
Lemma splitIntoSections_concat_differs :
  concatAll (splitIntoSections "a") <> "a".
Proof. vm_compute. discriminate. Qed.

(** Without a heading line the loop never cuts. *)
Lemma splitLoop_no_heading (lines : list string) (st : splitter) :
  Forall (fun line => regexp.headerRegex_MatchString line = false) lines ->
  fold_left splitLine lines st =
  mkSplitter (sections st)
    (currentSection st ++ concatAll (map (fun l => l ++ nl) lines)).
Proof.
  intros H; revert st; induction H as [|l lines Hl _ IH]; intros st; simpl.
  - rewrite append_nil_r. now destruct st.
  - rewrite IH. unfold splitLine. rewrite Hl. simpl.
    now rewrite !append_assoc.
Qed.

Lemma nonEmpty_append_nl (s : string) : nonEmpty (s ++ nl) = true.
Proof. now destruct s. Qed.

(** C6, as amended: for every input none of whose lines matches the
    heading pattern, the splitter returns exactly one section, and that
    section is the input followed by one newline. *)
Theorem splitIntoSections_no_heading (content : string) :
  Forall (fun line => regexp.headerRegex_MatchString line = false)
         (strings.Split content NL) ->
  splitIntoSections content = [content ++ nl].
Proof.
  intros H. unfold splitIntoSections.
  rewrite (splitLoop_no_heading _ _ H). simpl.
  rewrite Split_unlines, nonEmpty_append_nl. reflexivity.
Qed.

(** The amended C6 at the input [a], whose single line is no heading. *)
Lemma splitIntoSections_no_heading_witness :
  splitIntoSections "a" = ["a" ++ nl].
Proof.
  apply (splitIntoSections_no_heading "a").
  vm_compute. repeat constructor.
Defined.

(** C6, as stated, fails on the input [a]: none of its lines is a
    heading, yet the one section returned is not the input itself. *)
Lemma splitIntoSections_no_heading_differs :
  Forall (fun line => regexp.headerRegex_MatchString line = false)
         (strings.Split "a" NL) /\
  splitIntoSections "a" <> ["a"].
Proof.
  split.
  - vm_compute. repeat constructor.
  - vm_compute. discriminate.
Qed.

(** ** The validator *)

Lemma isEmpty_eqb (s : string) : isEmpty s = String.eqb s "".
Proof. now destruct s. Qed.

Lemma validateGuideline_spec (w : list string) (i : nat) (g : Guideline.t) :
  validateGuideline w i g = (w ++ guidelineWarnings (i + 1) g)%list.
Proof.
  unfold validateGuideline, guidelineWarnings.
  destruct (isEmpty (Guideline.Title g)), (isEmpty (Guideline.Description g)),
    (Guideline.Rules g), (Guideline.Examples g); simpl;
    rewrite <- ?app_assoc; simpl; rewrite ?app_nil_r; reflexivity.
Qed.

Lemma validateLoop_spec (gs : list Guideline.t) (i : nat) (w : list string) :
  validateLoop i gs w = (w ++ perGuideline (S i) gs)%list.
Proof.
  revert i w; induction gs as [|g gs IH]; intros i w; simpl.
  - now rewrite app_nil_r.
  - rewrite IH, validateGuideline_spec, <- app_assoc.
    now replace (i + 1) with (S i) by lia.
Qed.

(** C9: for every set the validator returns the warnings in the stated
    order (name, then count, then per guideline title, description, rules
    and examples, numbered from 1) and leaves the set as it was; on an
    empty name and no guideline it returns exactly the two warnings. *)
Theorem ValidateGuidelines_warnings (gs : GuidelineSet.t) :
  ValidateGuidelines gs = (gs, expectedWarnings gs) /\
  (forall version description loadedAt,
     snd (ValidateGuidelines
            (GuidelineSet.mk "" version description [] loadedAt)) =
     ["Guideline set name is empty"; "No guidelines found in the set"]).
Proof.
  split; [|reflexivity].
  unfold ValidateGuidelines, expectedWarnings.
  rewrite validateLoop_spec, isEmpty_eqb. f_equal.
  destruct (String.eqb (GuidelineSet.Name gs) "");
    destruct (GuidelineSet.Guidelines gs); reflexivity.
Qed.

(** ** The section extractor *)

(** Case analysis along the branches of [scanLine]. *)
Ltac scan_cases :=
  unfold scanLine, flushExample;
  repeat match goal with
         | |- context [match ?x with _ => _ end] => destruct x eqn:?
         end;
  simpl in *.

Section ParserProperties.

Variable ToLower : string -> string.

(** *** Identifiers *)

Lemma scanLine_ID (st : scan) (l : string) :
  Guideline.ID (guideline (scanLine ToLower st l)) =
  Guideline.ID (guideline st).
Proof. scan_cases; reflexivity. Qed.

Lemma scanLoop_ID (lines : list string) (st : scan) :
  Guideline.ID (guideline (fold_left (scanLine ToLower) lines st)) =
  Guideline.ID (guideline st).
Proof.
  revert st; induction lines as [|l lines IH]; intros st; simpl;
    [reflexivity | now rewrite IH, scanLine_ID].
Qed.

Lemma finishScan_ID (st : scan) :
  Guideline.ID (finishScan st) = Guideline.ID (guideline st).
Proof.
  unfold finishScan, flushExample.
  repeat match goal with
         | |- context [match ?x with _ => _ end] => destruct x eqn:?
         end; reflexivity.
Qed.

Lemma parseSection_ID (section : string) (n : nat) (g : Guideline.t) :
  parseSection ToLower section n = Some g ->
  Guideline.ID g = "guideline_" ++ itoa n.
Proof.
  unfold parseSection.
  destruct (Nat.eqb _ 0); [discriminate|].
  intros [= <-]. now rewrite finishScan_ID, scanLoop_ID.
Qed.

(** [strings.Split] returns at least one line, so the nil branch of
    [parseSection] is never taken. *)
Lemma parseSection_total (section : string) (n : nat) :
  exists g, parseSection ToLower section n = Some g.
Proof.
  unfold parseSection.
  destruct (strings.Split section NL) eqn:E.
  - now destruct (Split_not_nil section NL).
  - simpl. eauto.
Qed.

Lemma parseContentLoop_emitted (secs : list string) (i : nat)
    (acc : list Guideline.t) :
  parseContentLoop ToLower i secs acc =
  (acc ++ flat_map (emitted ToLower)
            (combine (seq i (List.length secs)) secs))%list.
Proof.
  revert i acc; induction secs as [|s secs IH]; intros i acc; simpl.
  - now rewrite app_nil_r.
  - rewrite IH. unfold emitted at 2. simpl.
    destruct (parseSection ToLower s (i + 1)); simpl;
      now rewrite <- ?app_assoc.
Qed.

(** *** Orchestration *)

(** C7: for every content, name and kind, and whatever the clock says,
    [ParseGuidelines] returns a set and a nil error; the set carries the
    name, version 1.0.0 and the description built from the kind, with
    [general] standing in for an empty kind. *)
Theorem ParseGuidelines_succeeds (now content name kind : string) :
  exists gs,
    ParseGuidelines ToLower now content name kind = (Some gs, None) /\
    GuidelineSet.Name gs = name /\
    GuidelineSet.Version gs = "1.0.0" /\
    GuidelineSet.Description gs =
      (if String.eqb kind "" then "general" else kind) ++
        " coding guidelines" /\
    GuidelineSet.Guidelines gs = parseContent ToLower content /\
    GuidelineSet.LoadedAt gs = now.
Proof.
  unfold ParseGuidelines. eexists. split; [reflexivity|]. simpl.
  rewrite isEmpty_eqb. repeat split.
Qed.

(** *** Examples are never blank *)

Lemma nonEmpty_true (s : string) : nonEmpty s = true -> s <> "".
Proof. destruct s; [discriminate | discriminate]. Qed.

Lemma flushExample_examples cur g e :
  In e (Guideline.Examples (flushExample cur g)) ->
  In e (Guideline.Examples g) \/ (cur = Some e /\ filled e).
Proof.
  unfold flushExample.
  destruct cur as [c|]; [|now left].
  destruct (nonEmpty (GuidelineExample.Good c) ||
            nonEmpty (GuidelineExample.Bad c)) eqn:E; [|now left].
  simpl. rewrite in_app_iff. intros [H|[<-|[]]]; [now left|right].
  split; [reflexivity|]. unfold filled.
  apply orb_true_iff in E as [E|E]; [left|right]; now apply nonEmpty_true.
Qed.

Lemma scanLine_examples st l e :
  In e (Guideline.Examples (guideline (scanLine ToLower st l))) ->
  In e (Guideline.Examples (guideline st)) \/
  (currentExample st = Some e /\ filled e).
Proof.
  intros H.
  destruct (in_dec (fun a b : GuidelineExample.t =>
              ltac:(repeat decide equality) : {a = b} + {a <> b})
              e (Guideline.Examples (guideline st))) as [Hin|Hout];
    [now left|right].
  revert H. unfold scanLine.
  repeat match goal with
         | |- context [match ?x with _ => _ end] => destruct x eqn:?
         end; simpl; intros H; try contradiction.
  apply flushExample_examples in H as [H|[H1 H2]]; [contradiction|].
  split; assumption.
Qed.

Lemma finishScan_examples st e :
  In e (Guideline.Examples (finishScan st)) ->
  In e (Guideline.Examples (guideline st)) \/
  (currentExample st = Some e /\ filled e).
Proof.
  unfold finishScan.
  destruct (isEmpty _ && nonEmpty _); simpl; apply flushExample_examples.
Qed.

Lemma scanLoop_filled (lines : list string) (st : scan) :
  Forall filled (Guideline.Examples (guideline st)) ->
  Forall filled
    (Guideline.Examples (guideline (fold_left (scanLine ToLower) lines st))).
Proof.
  revert st; induction lines as [|l lines IH]; intros st H; simpl;
    [assumption|].
  apply IH. apply Forall_forall. intros e He.
  apply scanLine_examples in He as [He|[_ He]]; [|assumption].
  revert e He. now apply Forall_forall.
Qed.

Lemma parseSection_filled (section : string) (n : nat) (g : Guideline.t) :
  parseSection ToLower section n = Some g ->
  Forall filled (Guideline.Examples g).
Proof.
  unfold parseSection.
  destruct (Nat.eqb _ 0); [discriminate|]. intros [= <-].
  apply Forall_forall. intros e He.
  apply finishScan_examples in He as [He|[_ He]]; [|assumption].
  revert e He. apply Forall_forall, scanLoop_filled. constructor.
Qed.

(** C8: in every guideline of every document, every entry of the
    examples list has a non-empty good or bad field; a line of the scan
    and the end of the scan add to the list nothing but the example in
    progress, and only when its good or bad field is non-empty. *)
Theorem examples_never_blank (content : string) :
  Forall (fun g => Forall filled (Guideline.Examples g))
         (parseContent ToLower content) /\
  (forall st l e,
      In e (Guideline.Examples (guideline (scanLine ToLower st l))) ->
      In e (Guideline.Examples (guideline st)) \/
      (currentExample st = Some e /\ filled e)) /\
  (forall st e,
      In e (Guideline.Examples (finishScan st)) ->
      In e (Guideline.Examples (guideline st)) \/
      (currentExample st = Some e /\ filled e)).
Proof.
  split; [|split; [apply scanLine_examples | apply finishScan_examples]].
  unfold parseContent. rewrite parseContentLoop_emitted. simpl.
  apply Forall_flat_map, Forall_forall. intros [i s] _.
  unfold emitted; simpl.
  destruct (parseSection ToLower s (i + 1)) eqn:E; [|constructor].
  constructor; [|constructor]. eapply parseSection_filled, E.
Qed.

End ParserProperties.

(** ** Code blocks under one example header *)

(** A fence line starts with a backquote, so it is no heading line. *)
Lemma fence_not_heading (line : string) :
  strings.HasPrefix line fence = true ->
  regexp.headerRegex_FindStringSubmatch line = None.
Proof.
  destruct line as [|c line]; [discriminate|].
  unfold strings.HasPrefix, fence. cbn [String.prefix].
  destruct (ascii_dec "`" c) as [<-|]; [reflexivity | discriminate].
Qed.

Section CodeBlocks.

Variable ToLower : string -> string.

Lemma scanLine_idle (st : scan) (l : string) :
  idle st -> idle (scanLine ToLower st l).
Proof.
  unfold idle. scan_cases; intros H1 H2;
    try discriminate; try reflexivity; try (apply H1; congruence);
    congruence.
Qed.

Lemma scanLoop_idle (lines : list string) (st : scan) :
  idle st -> idle (fold_left (scanLine ToLower) lines st).
Proof.
  revert st; induction lines as [|l lines IH]; intros st H; simpl;
    [assumption | apply IH, scanLine_idle, H].
Qed.

Lemma scan_header (st : scan) (hdr : string) :
  inCodeBlock st = false -> idle st ->
  isExampleHeader ToLower hdr = true ->
  between (strings.TrimSpace hdr) (scanLine ToLower st hdr).
Proof.
  intros Hout Hidle Hhdr. unfold isExampleHeader in Hhdr.
  apply andb_true_iff in Hhdr as [Hhdr Hm].
  apply andb_true_iff in Hhdr as [Hhdr Hl].
  apply andb_true_iff in Hhdr as [Hh Hf].
  unfold isHeading, regexp.headerRegex_MatchString in Hh.
  unfold isFence in Hf. unfold isListItem in Hl.
  unfold scanLine.
  destruct (regexp.headerRegex_FindStringSubmatch (strings.TrimSpace hdr));
    [discriminate|].
  destruct (strings.HasPrefix (strings.TrimSpace hdr) fence); [discriminate|].
  rewrite Hout.
  destruct (regexp.listRegex_FindStringSubmatch (strings.TrimSpace hdr));
    [discriminate|].
  rewrite Hm. unfold between; simpl.
  split; [reflexivity|]. split; [now apply Hidle | eauto].
Qed.

Lemma scan_outside (title : string) (st : scan) (l : string) :
  between title st ->
  wellFormed ToLower (Outside l) = true ->
  between title (scanLine ToLower st l).
Proof.
  intros (Hout & Hc & e & He & Ht) Hwf. simpl in Hwf.
  apply andb_true_iff in Hwf as [Hf Hx].
  unfold isFence in Hf. unfold isExampleHeader in Hx.
  unfold isFence, isHeading, isListItem, regexp.headerRegex_MatchString in Hx.
  unfold between, scanLine.
  destruct (regexp.headerRegex_FindStringSubmatch (strings.TrimSpace l)).
  { destruct (isEmpty _); simpl; eauto. }
  destruct (strings.HasPrefix (strings.TrimSpace l) fence); [discriminate|].
  rewrite Hout.
  destruct (regexp.listRegex_FindStringSubmatch (strings.TrimSpace l)).
  { simpl; eauto. }
  simpl in Hx. apply negb_true_iff in Hx. rewrite Hx, He.
  destruct (nonEmpty _ && isEmpty _); simpl; [eauto|].
  destruct (nonEmpty _ && isEmpty _); simpl; eauto.
Qed.

Lemma scan_open (st : scan) (l : string) :
  inCodeBlock st = false -> isFence l = true ->
  scanLine ToLower st l =
  mkScan (guideline st) (currentContent st) true
    (match currentExample st with
     | None => Some (GuidelineExample.withTitle "Code Example")
     | Some e => Some e
     end).
Proof.
  intros Hout Hf. unfold isFence in Hf. unfold scanLine.
  now rewrite (fence_not_heading _ Hf), Hf, Hout.
Qed.

Lemma scan_close (st : scan) (l : string) :
  inCodeBlock st = true -> isFence l = true ->
  scanLine ToLower st l =
  mkScan (guideline st) "" false
    (option_map (storeContent ToLower (currentContent st))
                (currentExample st)).
Proof.
  intros Hin Hf. unfold isFence in Hf. unfold scanLine.
  now rewrite (fence_not_heading _ Hf), Hf, Hin.
Qed.

Lemma scan_body (body : list string) (st : scan) :
  inCodeBlock st = true ->
  forallb (fun l => negb (isFence l)) body = true ->
  let st' := fold_left (scanLine ToLower) body st in
  inCodeBlock st' = true /\
  currentExample st' = currentExample st /\
  currentContent st' = currentContent st ++ blockContent body.
Proof.
  revert st; induction body as [|l body IH]; intros st Hin Hb; simpl.
  - unfold blockContent; simpl. now rewrite append_nil_r.
  - simpl in Hb. apply andb_true_iff in Hb as [Hl Hb].
    apply negb_true_iff in Hl. unfold isFence in Hl.
    assert (Hstep :
      inCodeBlock (scanLine ToLower st l) = true /\
      currentExample (scanLine ToLower st l) = currentExample st /\
      currentContent (scanLine ToLower st l) =
        currentContent st ++
        (if isHeading l then "" else strings.TrimSpace l ++ nl)).
    { unfold scanLine, isHeading, regexp.headerRegex_MatchString.
      destruct (regexp.headerRegex_FindStringSubmatch (strings.TrimSpace l)).
      - destruct (isEmpty _); simpl; now rewrite append_nil_r.
      - rewrite Hl, Hin. simpl. auto. }
    destruct Hstep as (H1 & H2 & H3).
    destruct (IH _ H1 Hb) as (I1 & I2 & I3).
    split; [assumption|]. split; [congruence|].
    rewrite I3, H3, append_assoc. f_equal.
    unfold blockContent. simpl.
    destruct (isHeading l); simpl; [reflexivity|].
    now rewrite append_assoc.
Qed.

Lemma storeContent_field (content title : string) (f : field)
    (e : GuidelineExample.t) :
  GuidelineExample.Title e = title ->
  classify ToLower title = Some f ->
  GuidelineExample.Title (storeContent ToLower content e) = title /\
  getField f (storeContent ToLower content e) = strings.TrimSpace content.
Proof.
  intros <-. unfold classify, storeContent.
  destruct (_ || _ || _).
  - intros [= <-]. now split.
  - destruct (_ || _ || _); [|discriminate].
    intros [= <-]. now split.
Qed.

(** A complete block leaves the scan between blocks, and the field the
    title selects holds the trimmed content of this block, whatever it
    held before. *)
Lemma scan_block (title : string) (f : field) (st : scan)
    (opening : string) (body : list string) (closing : string) :
  between title st ->
  classify ToLower title = Some f ->
  wellFormed ToLower (Block opening body closing) = true ->
  let st' := fold_left (scanLine ToLower)
               (chunkLines (Block opening body closing)) st in
  between title st' /\
  exists e, currentExample st' = Some e /\
            getField f e = strings.TrimSpace (blockContent body).
Proof.
  intros (Hout & Hc & e & He & Ht) Hf Hwf. simpl in Hwf.
  apply andb_true_iff in Hwf as [Hwf Hb].
  apply andb_true_iff in Hwf as [Ho Hcl].
  simpl. rewrite fold_left_app. simpl.
  rewrite (scan_open _ _ Hout Ho), He, Hc.
  match goal with
  | |- context [fold_left _ body ?s] =>
      destruct (scan_body body s eq_refl Hb) as (B1 & B2 & B3)
  end.
  simpl in B2, B3.
  rewrite (scan_close _ _ B1 Hcl), B2, B3. simpl.
  destruct (storeContent_field (blockContent body) title f e Ht Hf)
    as [S1 S2].
  unfold between; simpl. repeat split; eauto.
Qed.

Lemma scan_chunks (title : string) (f : field) (chunks : list chunk)
    (st : scan) :
  between title st ->
  classify ToLower title = Some f ->
  forallb (wellFormed ToLower) chunks = true ->
  between title
    (fold_left (scanLine ToLower) (flat_map chunkLines chunks) st).
Proof.
  intros Hst Hf. revert st Hst.
  induction chunks as [|c chunks IH]; intros st Hst Hwf; simpl;
    [assumption|].
  simpl in Hwf. apply andb_true_iff in Hwf as [Hc Hwf].
  rewrite fold_left_app. apply IH; [|assumption].
  destruct c as [o b cl|l].
  - now apply (scan_block title f st o b cl Hst Hf Hc).
  - simpl. now apply scan_outside.
Qed.

(** The example in progress right after the last fence: after an example
    header whose title selects a field, and any complete blocks and other
    lines without a further example header, one more complete block
    leaves that field of the example in progress equal to the trimmed
    content of this last block. *)
Lemma last_block_wins (id : nat) (before : list string) (hdr : string)
    (chunks : list chunk) (opening : string) (body : list string)
    (closing : string) (f : field) :
  inCodeBlock (fold_left (scanLine ToLower) before (initScan id)) = false ->
  isExampleHeader ToLower hdr = true ->
  classify ToLower (strings.TrimSpace hdr) = Some f ->
  forallb (wellFormed ToLower) chunks = true ->
  wellFormed ToLower (Block opening body closing) = true ->
  exists e,
    currentExample
      (fold_left (scanLine ToLower)
         (before ++ hdr :: flat_map chunkLines chunks ++
            chunkLines (Block opening body closing))%list
         (initScan id)) = Some e /\
    GuidelineExample.Title e = strings.TrimSpace hdr /\
    getField f e = strings.TrimSpace (blockContent body).
Proof.
  intros Hout Hhdr Hf Hchunks Hlast.
  rewrite fold_left_app. cbn [fold_left]. rewrite fold_left_app.
  set (st0 := fold_left (scanLine ToLower) before (initScan id)) in *.
  assert (Hidle : idle st0).
  { apply scanLoop_idle. intros _. reflexivity. }
  pose proof (scan_header st0 hdr Hout Hidle Hhdr) as H1.
  pose proof (scan_chunks _ f chunks _ H1 Hf Hchunks) as H2.
  destruct (scan_block _ f _ opening body closing H2 Hf Hlast)
    as [(_ & _ & e & He & Ht) (e' & He' & Hfield)].
  exists e. split; [assumption|]. split; [assumption|].
  rewrite He in He'. now injection He' as ->.
Qed.

End CodeBlocks.

(** [last_block_wins] at the document [twoBlocksDoc]: the header
    [Good example], a first block holding [first] and a last block holding
    [second]. *)
Lemma last_block_wins_witness :
  exists e,
    currentExample
      (fold_left (scanLine asciiToLower)
         ([] ++ "Good example" ::
            flat_map chunkLines [Block "```" ["first"] "```"] ++
            chunkLines (Block "```" ["second"] "```"))%list
         (initScan 1)) = Some e /\
    GuidelineExample.Title e = strings.TrimSpace "Good example" /\
    getField FGood e = strings.TrimSpace (blockContent ["second"]).
Proof.
  apply (last_block_wins asciiToLower 1 [] "Good example"
           [Block "```" ["first"] "```"] "```" ["second"] "```" FGood);
    reflexivity.
Defined.

(** The same through [parseContent]: the example keeps [second] only. *)
Example twoBlocksDoc_parsed :
  parseContent asciiToLower twoBlocksDoc =
  [Guideline.mk "guideline_1" "" "" "" "medium"
     [GuidelineExample.mk "Good example" "second" "" ""] []].
Proof. reflexivity. Qed.

(** ** Where the closing fence stores the content *)

Lemma prefix_dont_do (s : string) :
  String.prefix "don't" s = true -> String.prefix "do" s = true.
Proof.
  destruct s as [|a [|b s]]; cbn [String.prefix]; try discriminate.
  - destruct (ascii_dec "d" a); discriminate.
  - destruct (ascii_dec "d" a); [|discriminate].
    destruct (ascii_dec "o" b); [|discriminate].
    intros _. now destruct s.
Qed.

Lemma Contains_dont_do (s : string) :
  strings.Contains s "don't" = true -> strings.Contains s "do" = true.
Proof.
  induction s as [|c s IH]; cbn [strings.Contains]; intros H;
    apply orb_true_iff in H as [H|H]; try discriminate.
  - now rewrite (prefix_dont_do _ H).
  - rewrite (IH H). apply orb_true_r.
Qed.

(** The second test of the closing fence is never reached by a title
    that contains "don't": the first test finds "do" in it. *)
Lemma dont_title_stored_as_good (ToLower : string -> string)
    (content : string) (e : GuidelineExample.t) :
  strings.Contains (ToLower (GuidelineExample.Title e)) "don't" = true ->
  storeContent ToLower content e = setGood e (strings.TrimSpace content).
Proof.
  intros H. unfold storeContent.
  rewrite (Contains_dont_do _ H). now rewrite !orb_true_r.
Qed.

(** C2 at the document [dontDoc]: the title of the example contains
    "don't" and the content of its block is stored in the good field,
    the bad field staying empty. *)
Theorem dont_example_stored_as_good :
  parseContent asciiToLower dontDoc =
  [Guideline.mk "guideline_1" "" "" "" "medium"
     [GuidelineExample.mk "Don't Example" "x" "" ""] []].
Proof. reflexivity. Qed.

(** ** The five-line document *)

(** C3, as amended: the document yields three guidelines, one for each
    heading line, and none of them has an example. *)
Theorem namingDoc_parsed :
  parseContent asciiToLower namingDoc =
  [Guideline.mk "guideline_1" "Naming" "Naming" "naming" "medium" [] [];
   Guideline.mk "guideline_2" "Bad Example" "Bad Example" "general" "medium"
     [] [];
   Guideline.mk "guideline_3" "Good Example" "Good Example" "general" "medium"
     [] []].
Proof. reflexivity. Qed.

(** C3, as stated, fails: no guideline of the document has two examples
    of which the first holds [bad code] and the second [good code]. *)
Lemma namingDoc_no_two_examples :
  ~ exists g e1 e2,
      In g (parseContent asciiToLower namingDoc) /\
      Guideline.Examples g = [e1; e2] /\
      GuidelineExample.Bad e1 = "bad code" /\
      GuidelineExample.Good e1 = "" /\
      GuidelineExample.Good e2 = "good code" /\
      GuidelineExample.Bad e2 = "".
Proof.
  intros (g & e1 & e2 & Hin & Hex & _).
  vm_compute in Hin.
  destruct Hin as [<-|[<-|[<-|[]]]]; discriminate.
Qed.

(** ** Priority and category *)

Section Inference.

Variable ToLower : string -> string.

Lemma inferPriority_enumerated (title : string) :
  In (inferPriority ToLower title) priorities.
Proof.
  unfold inferPriority, priorities.
  repeat match goal with
         | |- context [if ?b then _ else _] => destruct b
         end; simpl; auto.
Qed.

Lemma inferCategory_enumerated (title : string) :
  In (inferCategory ToLower title) categories.
Proof.
  unfold inferCategory, categories.
  repeat match goal with
         | |- context [if ?b then _ else _] => destruct b
         end; simpl; auto 10.
Qed.

Lemma scanLine_inferred (st : scan) (l : string) :
  inferred (guideline st) -> inferred (guideline (scanLine ToLower st l)).
Proof.
  unfold inferred. intros [Hp Hc]. scan_cases; auto.
  all: split; [apply inferPriority_enumerated |
               left; apply inferCategory_enumerated].
Qed.

Lemma scanLoop_inferred (lines : list string) (st : scan) :
  inferred (guideline st) ->
  inferred (guideline (fold_left (scanLine ToLower) lines st)).
Proof.
  revert st; induction lines as [|l lines IH]; intros st H; simpl;
    [assumption | apply IH, scanLine_inferred, H].
Qed.

(** What does hold of every parsed guideline: the priority is one of
    the three values; the category is one of the seven, or empty along
    with the title. *)
Lemma parseSection_inferred (section : string) (n : nat) (g : Guideline.t) :
  parseSection ToLower section n = Some g -> inferred g.
Proof.
  unfold parseSection. destruct (Nat.eqb _ 0); [discriminate|].
  intros [= <-].
  pose proof (scanLoop_inferred (strings.Split section NL) (initScan n))
    as H.
  unfold finishScan, flushExample.
  repeat match goal with
         | |- context [match ?x with _ => _ end] => destruct x eqn:?
         end; apply H; unfold inferred; simpl; auto.
Qed.

End Inference.

(** C4 at the document [intro], which has no heading line: its one
    guideline has the default priority and an empty category. *)
Theorem headingless_section_has_no_category :
  parseContent asciiToLower "intro" =
  [Guideline.mk "guideline_1" "" "intro" "" "medium" [] []].
Proof. reflexivity. Qed.


(** * Further properties of the parser and of its callers *)

(** ** Lines and [strings.Split] *)

Lemma Split_noNewline (s : string) :
  Forall (fun l => regexp.noNewline l = true) (strings.Split s NL).
Proof.
  induction s as [|c s IH]; simpl.
  - repeat constructor.
  - destruct (Ascii.eqb c NL) eqn:E.
    + constructor; [reflexivity | assumption].
    + destruct (strings.Split s NL) as [|h t].
      * constructor; [|constructor]. simpl. now rewrite E.
      * inversion IH; subst. constructor; [|assumption].
        simpl. now rewrite E.
Qed.

Lemma Split_line (l rest : string) :
  regexp.noNewline l = true ->
  strings.Split (l ++ String NL rest) NL = l :: strings.Split rest NL.
Proof.
  induction l as [|c l IH]; simpl; intros H.
  - reflexivity.
  - apply andb_true_iff in H as [Hc Hl]. apply negb_true_iff in Hc.
    rewrite Hc, (IH Hl). reflexivity.
Qed.

Lemma unlines_cons (l : string) (ls : list string) :
  unlines (l :: ls) = l ++ nl ++ unlines ls.
Proof. unfold unlines. simpl. now rewrite append_assoc. Qed.

Lemma unlines_one (l : string) : unlines [l] = l ++ nl.
Proof. unfold unlines. simpl. now rewrite append_nil_r. Qed.

Lemma unlines_app (l1 l2 : list string) :
  unlines (l1 ++ l2) = unlines l1 ++ unlines l2.
Proof. unfold unlines. now rewrite map_app, concatAll_app. Qed.

(** Splitting what [unlines] wrote gives the lines back, and one empty
    line after the last newline. *)
Lemma Split_of_unlines (ls : list string) :
  Forall (fun l => regexp.noNewline l = true) ls ->
  strings.Split (unlines ls) NL = (ls ++ [""])%list.
Proof.
  induction 1 as [|l ls Hl _ IH]; [reflexivity|].
  rewrite unlines_cons.
  change (nl ++ unlines ls) with (String NL (unlines ls)).
  now rewrite (Split_line _ _ Hl), IH.
Qed.

(** ** The splitter on groups of lines *)

Lemma nonEmpty_unlines (g : list string) :
  nonEmpty (unlines g) = match g with [] => false | _ :: _ => true end.
Proof.
  destruct g as [|l g]; [reflexivity|].
  rewrite unlines_cons. now destruct l.
Qed.

Lemma splitLine_groupLine (G : list (list string)) (C : list string)
    (line : string) :
  splitLine (mkSplitter (map unlines G) (unlines C)) line =
  mkSplitter (map unlines (fst (groupLine (G, C) line)))
             (unlines (snd (groupLine (G, C) line))).
Proof.
  unfold splitLine, groupLine, splitsHere.
  cbn [fst snd sections currentSection]. rewrite nonEmpty_unlines.
  destruct C as [|c C].
  - rewrite andb_false_r. cbn [fst snd sections currentSection].
    now rewrite unlines_one.
  - rewrite andb_true_r.
    destruct (regexp.headerRegex_MatchString line);
      cbn [fst snd sections currentSection].
    + now rewrite map_app, unlines_one.
    + now rewrite unlines_app, unlines_one.
Qed.

Lemma splitLoop_groupLoop (lines : list string) (G : list (list string))
    (C : list string) :
  fold_left splitLine lines (mkSplitter (map unlines G) (unlines C)) =
  mkSplitter (map unlines (fst (fold_left groupLine lines (G, C))))
             (unlines (snd (fold_left groupLine lines (G, C)))).
Proof.
  revert G C; induction lines as [|l lines IH]; intros G C; simpl;
    [reflexivity|].
  rewrite splitLine_groupLine.
  destruct (groupLine (G, C) l) as [G' C']. apply IH.
Qed.

Lemma groupLine_current (st : list (list string) * list string)
    (line : string) :
  snd (groupLine st line) <> [].
Proof.
  unfold groupLine. destruct (snd st) as [|c C]; [discriminate|].
  destruct (splitsHere line); simpl; discriminate.
Qed.

Lemma groupLoop_current (lines : list string)
    (st : list (list string) * list string) :
  snd st <> [] -> snd (fold_left groupLine lines st) <> [].
Proof.
  revert st; induction lines as [|l lines IH]; intros st H; simpl;
    [assumption | apply IH, groupLine_current].
Qed.

(** The sections are the groups, each written with [unlines]. *)
Lemma splitIntoSections_groups (content : string) :
  let st := fold_left groupLine (strings.Split content NL) ([], []) in
  splitIntoSections content = map unlines (fst st ++ [snd st])%list /\
  snd st <> [].
Proof.
  simpl. unfold splitIntoSections.
  change (mkSplitter [] "") with (mkSplitter (map unlines []) (unlines [])).
  rewrite splitLoop_groupLoop. simpl.
  assert (H : snd (fold_left groupLine (strings.Split content NL) ([], []))
              <> []).
  { destruct (strings.Split content NL) as [|l ls] eqn:E.
    - now destruct (Split_not_nil content NL).
    - simpl. apply groupLoop_current. discriminate. }
  split; [|assumption].
  rewrite nonEmpty_unlines, map_app.
  destruct (snd _); [contradiction | reflexivity].
Qed.

Lemma groupLoop_length (lines : list string)
    (st : list (list string) * list string) :
  snd st <> [] ->
  List.length (fst (fold_left groupLine lines st)) =
  List.length (fst st) + List.length (filter splitsHere lines).
Proof.
  revert st; induction lines as [|l lines IH]; intros st H; simpl;
    [lia|].
  rewrite IH by apply groupLine_current.
  unfold groupLine. destruct (snd st) as [|c C]; [contradiction|].
  destruct (splitsHere l); simpl; [|lia].
  rewrite length_app. simpl. lia.
Qed.

(** The splitter cuts once at every heading line but the very first
    line: there is one section more than heading lines after line one.
    In particular there is always a section. *)
Theorem sections_count (content : string) :
  List.length (splitIntoSections content) =
  S (List.length (filter splitsHere (tl (strings.Split content NL)))).
Proof.
  destruct (splitIntoSections_groups content) as [-> _].
  rewrite length_map, length_app. simpl.
  destruct (strings.Split content NL) as [|l ls] eqn:E.
  - now destruct (Split_not_nil content NL).
  - simpl. rewrite groupLoop_length by discriminate. simpl. lia.
Qed.

Lemma groupLine_grouped (st : list (list string) * list string)
    (line : string) :
  grouped st -> regexp.noNewline line = true -> grouped (groupLine st line).
Proof.
  destruct st as [G C]. unfold grouped, groupLine. simpl.
  intros (HG & HC & HT & HH) Hl.
  assert (Hone : okGroup [line]).
  { repeat split; [discriminate | now constructor | constructor]. }
  destruct C as [|c C].
  - simpl. repeat split; auto.
    intros HGne. specialize (HH HGne). discriminate HH.
  - destruct HC as [HC|HC]; [discriminate|].
    destruct (splitsHere line) eqn:E; simpl.
    + repeat split; auto.
      * apply Forall_app. split; [assumption | now constructor].
      * destruct G as [|g G]; simpl; [constructor|].
        apply Forall_app. split; [assumption|].
        constructor; [|constructor]. apply HH. discriminate.
    + destruct HC as (_ & Hnl & Hplain).
      repeat split; auto.
      right. repeat split; [discriminate | |].
      * change (Forall (fun l => regexp.noNewline l = true)
                  ((c :: C) ++ [line])%list).
        apply Forall_app. split; [assumption | now constructor].
      * simpl in *. apply Forall_app. split; [assumption | now constructor].
Qed.

Lemma groupLoop_grouped (lines : list string)
    (st : list (list string) * list string) :
  grouped st -> Forall (fun l => regexp.noNewline l = true) lines ->
  grouped (fold_left groupLine lines st).
Proof.
  intros Hst Hl. revert st Hst.
  induction Hl as [|l lines Hl _ IH]; intros st Hst; simpl;
    [assumption | now apply IH, groupLine_grouped].
Qed.

(** All groups once the loop is over. *)
Lemma grouped_all (st : list (list string) * list string) :
  grouped st -> snd st <> [] ->
  Forall okGroup (fst st ++ [snd st])%list /\
  Forall headed (tl (fst st ++ [snd st]))%list.
Proof.
  destruct st as [G C]. unfold grouped. simpl.
  intros (HG & HC & HT & HH) Hne.
  destruct HC as [HC|HC]; [contradiction|]. split.
  - apply Forall_app. split; [assumption | now constructor].
  - destruct G as [|g G]; simpl; [constructor|].
    apply Forall_app. split; [assumption|].
    constructor; [|constructor]. apply HH. discriminate.
Qed.

Lemma okGroup_Split (g : list string) :
  okGroup g ->
  strings.Split (unlines g) NL = (g ++ [""])%list /\
  hd "" (g ++ [""])%list = hd "" g /\
  tl (g ++ [""])%list = (tl g ++ [""])%list.
Proof.
  intros (Hne & Hnl & _). split; [now apply Split_of_unlines|].
  destruct g; [contradiction | now split].
Qed.

Lemma unlines_ends (g : list string) :
  g <> [] -> exists body, unlines g = body ++ nl.
Proof.
  intros H. destruct (exists_last H) as (g' & l & ->).
  exists (unlines g' ++ l).
  now rewrite unlines_app, unlines_one, append_assoc.
Qed.

(** Where the sections begin and end: every section ends with a newline;
    every section after the first opens with a heading line; and in no
    section does a heading line come after the first line. *)
Theorem sections_open_at_headings (content : string) :
  let secs := splitIntoSections content in
  Forall (fun s => exists body, s = body ++ nl) secs /\
  Forall (fun s => splitsHere (hd "" (strings.Split s NL)) = true)
         (tl secs) /\
  Forall (fun s => Forall (fun l => splitsHere l = false)
                          (tl (strings.Split s NL))) secs.
Proof.
  simpl. destruct (splitIntoSections_groups content) as [-> Hne].
  set (st := fold_left groupLine (strings.Split content NL) ([], [])) in *.
  assert (Hst : grouped st).
  { apply groupLoop_grouped; [|apply Split_noNewline].
    unfold grouped. simpl. repeat split; auto. intros []. reflexivity. }
  destruct (grouped_all st Hst Hne) as [Hok Hhd].
  split; [|split].
  - apply Forall_map. eapply Forall_impl; [|exact Hok].
    intros g (Hg & _). now apply unlines_ends.
  - destruct (fst st ++ [snd st])%list as [|g0 gs]; [constructor|].
    simpl in *. inversion Hok; subst.
    apply Forall_map, Forall_forall. intros g Hg.
    rewrite Forall_forall in Hhd, H2.
    destruct (okGroup_Split g (H2 g Hg)) as (-> & -> & _).
    now apply Hhd.
  - apply Forall_map. eapply Forall_impl; [|exact Hok].
    intros g Hg. destruct (okGroup_Split g Hg) as (-> & _ & ->).
    destruct Hg as (_ & _ & Hplain).
    apply Forall_app. split; [assumption | now constructor].
Qed.


(** ** Numbering *)

Lemma splitIntoSections_not_nil (content : string) :
  splitIntoSections content <> [].
Proof.
  destruct (splitIntoSections_groups content) as [-> _].
  rewrite map_app. simpl. now destruct (map unlines _).
Qed.

Section Numbering.

Variable ToLower : string -> string.

Lemma emitted_IDs (secs : list string) (i : nat) :
  map Guideline.ID
    (flat_map (emitted ToLower) (combine (seq i (List.length secs)) secs)) =
  map (fun k => "guideline_" ++ itoa (k + 1)) (seq i (List.length secs)).
Proof.
  revert i; induction secs as [|s secs IH]; intros i; simpl;
    [reflexivity|].
  rewrite map_app, IH. f_equal.
  unfold emitted. simpl.
  destruct (parseSection_total ToLower s (i + 1)) as [g Hg].
  rewrite Hg. simpl. now rewrite (parseSection_ID ToLower _ _ _ Hg).
Qed.

(** Every section yields a guideline, so the identifiers are
    [guideline_1], [guideline_2], ... without gap, one per section, and no
    document, not even the empty one, parses to an empty list. *)
Theorem guideline_ids_dense (content : string) :
  map Guideline.ID (parseContent ToLower content) =
    map (fun k => "guideline_" ++ itoa (k + 1))
        (seq 0 (List.length (splitIntoSections content))) /\
  parseContent ToLower content <> [].
Proof.
  assert (H : map Guideline.ID (parseContent ToLower content) =
              map (fun k => "guideline_" ++ itoa (k + 1))
                (seq 0 (List.length (splitIntoSections content)))).
  { unfold parseContent. rewrite parseContentLoop_emitted. simpl.
    apply emitted_IDs. }
  split; [exact H|].
  intros E. rewrite E in H. simpl in H.
  pose proof (splitIntoSections_not_nil content) as Hne.
  destruct (splitIntoSections content); [contradiction | discriminate].
Qed.

End Numbering.

(** ** Title, category and priority *)

Lemma dotPlusEnd_nonempty (s cap : string) :
  regexp.dotPlusEnd s = Some cap -> cap <> "".
Proof.
  destruct s as [|c s]; simpl; [discriminate|].
  destruct (_ && _); [|discriminate]. intros [= <-]. discriminate.
Qed.

Lemma spacesThenText_nonempty (s cap : string) :
  regexp.spacesThenText s = Some cap -> cap <> "".
Proof.
  induction s as [|c s IH]; simpl; [discriminate|].
  destruct (regexp.isSpace c); [|discriminate].
  destruct (regexp.spacesThenText s) as [cap'|].
  - intros [= <-]. now apply IH.
  - apply dotPlusEnd_nonempty.
Qed.

(** The title a heading line captures is never empty. *)
Lemma heading_capture_nonempty (s cap : string) :
  regexp.headerRegex_FindStringSubmatch s = Some cap -> cap <> "".
Proof.
  unfold regexp.headerRegex_FindStringSubmatch.
  induction s as [|c s IH]; simpl; [discriminate|].
  destruct (Ascii.eqb c "#"); [|discriminate].
  destruct (regexp.hashesThenRest s) as [cap'|].
  - intros [= <-]. now apply IH.
  - apply spacesThenText_nonempty.
Qed.

Lemma isEmpty_true (s : string) : isEmpty s = true -> s = "".
Proof. destruct s; [reflexivity | discriminate]. Qed.

Lemma isEmpty_false (s : string) : isEmpty s = false -> s <> "".
Proof. destruct s; [discriminate | discriminate]. Qed.

Lemma titled_headingOf (g g' : Guideline.t) :
  headingOf g' = headingOf g -> titled g -> titled g'.
Proof.
  unfold titled, headingOf. intros [= H1 H2 H3].
  rewrite H1, H2, H3. tauto.
Qed.

Section Headings.

Variable ToLower : string -> string.

(** Only a heading line met while the title is empty touches the title,
    the category and the priority. *)
Lemma scanLine_headingOf (st : scan) (l : string) :
  headingOf (guideline (scanLine ToLower st l)) =
  match regexp.headerRegex_FindStringSubmatch (strings.TrimSpace l) with
  | Some title =>
      if isEmpty (Guideline.Title (guideline st))
      then (title, inferCategory ToLower title, inferPriority ToLower title)
      else headingOf (guideline st)
  | None => headingOf (guideline st)
  end.
Proof.
  unfold scanLine.
  destruct (regexp.headerRegex_FindStringSubmatch (strings.TrimSpace l)).
  - now destruct (isEmpty _).
  - unfold flushExample.
    repeat match goal with
           | |- context [match ?x with _ => _ end] => destruct x eqn:?
           end; reflexivity.
Qed.

Lemma scanLoop_headingOf_plain (lines : list string) (st : scan) :
  Forall (fun l => isHeading l = false) lines ->
  headingOf (guideline (fold_left (scanLine ToLower) lines st)) =
  headingOf (guideline st).
Proof.
  intros H; revert st; induction H as [|l lines Hl _ IH]; intros st; simpl;
    [reflexivity|].
  rewrite IH, scanLine_headingOf.
  unfold isHeading, regexp.headerRegex_MatchString in Hl.
  now destruct (regexp.headerRegex_FindStringSubmatch _).
Qed.

Lemma scanLoop_headingOf_kept (lines : list string) (st : scan) :
  Guideline.Title (guideline st) <> "" ->
  headingOf (guideline (fold_left (scanLine ToLower) lines st)) =
  headingOf (guideline st).
Proof.
  revert st; induction lines as [|l lines IH]; intros st H; simpl;
    [reflexivity|].
  assert (Hstep : headingOf (guideline (scanLine ToLower st l)) =
                  headingOf (guideline st)).
  { rewrite scanLine_headingOf.
    destruct (regexp.headerRegex_FindStringSubmatch _); [|reflexivity].
    destruct (isEmpty _) eqn:E; [|reflexivity].
    now apply isEmpty_true in E. }
  rewrite IH, Hstep; [reflexivity|].
  unfold headingOf in Hstep. injection Hstep as -> _ _. assumption.
Qed.

Lemma finishScan_headingOf (st : scan) :
  headingOf (finishScan st) = headingOf (guideline st).
Proof.
  unfold finishScan, flushExample.
  repeat match goal with
         | |- context [match ?x with _ => _ end] => destruct x eqn:?
         end; reflexivity.
Qed.

(** The first heading line of a section, and no later one, gives the
    guideline its title, and the category and priority inferred from it. *)
Theorem first_heading_wins (section : string) (id : nat)
    (pre : list string) (h : string) (post : list string) (title : string) :
  strings.Split section NL = (pre ++ h :: post)%list ->
  Forall (fun l => isHeading l = false) pre ->
  regexp.headerRegex_FindStringSubmatch (strings.TrimSpace h) = Some title ->
  exists g,
    parseSection ToLower section id = Some g /\
    headingOf g =
      (title, inferCategory ToLower title, inferPriority ToLower title).
Proof.
  intros Hsplit Hpre Hh. unfold parseSection. rewrite Hsplit.
  destruct (Nat.eqb _ 0) eqn:E.
  { apply Nat.eqb_eq in E. rewrite length_app in E. simpl in E. lia. }
  eexists. split; [reflexivity|].
  rewrite finishScan_headingOf, fold_left_app. simpl.
  set (st := fold_left (scanLine ToLower) pre (initScan id)).
  assert (Hst : headingOf (guideline st) = ("", "", "medium")).
  { unfold st. now rewrite scanLoop_headingOf_plain. }
  assert (Hone : headingOf (guideline (scanLine ToLower st h)) =
    (title, inferCategory ToLower title, inferPriority ToLower title)).
  { rewrite scanLine_headingOf, Hh.
    unfold headingOf in Hst. injection Hst as -> _ _. reflexivity. }
  rewrite scanLoop_headingOf_kept; [exact Hone|].
  unfold headingOf in Hone. injection Hone as -> _ _.
  eapply heading_capture_nonempty, Hh.
Qed.

Lemma scanLine_titled (st : scan) (l : string) :
  titled (guideline st) -> titled (guideline (scanLine ToLower st l)).
Proof.
  intros H. pose proof (scanLine_headingOf st l) as E.
  destruct (regexp.headerRegex_FindStringSubmatch _) as [title|] eqn:Hh;
    [|now apply (titled_headingOf _ _ E)].
  destruct (isEmpty _); [|now apply (titled_headingOf _ _ E)].
  right. unfold headingOf in E. injection E as -> -> ->.
  split; [eapply heading_capture_nonempty, Hh|].
  split; [apply inferCategory_enumerated | apply inferPriority_enumerated].
Qed.

Lemma scanLoop_titled (lines : list string) (st : scan) :
  titled (guideline st) ->
  titled (guideline (fold_left (scanLine ToLower) lines st)).
Proof.
  revert st; induction lines as [|l lines IH]; intros st H; simpl;
    [assumption | apply IH, scanLine_titled, H].
Qed.

(** In every document every guideline either has a title, with category
    and priority among the enumerated values, or has no title, an empty
    category and the priority [medium]. *)
Theorem guidelines_titled (content : string) :
  Forall titled (parseContent ToLower content).
Proof.
  unfold parseContent. rewrite parseContentLoop_emitted. simpl.
  apply Forall_flat_map, Forall_forall. intros [i s] _.
  unfold emitted, parseSection. simpl.
  destruct (Nat.eqb _ 0); constructor; [|constructor].
  eapply titled_headingOf; [apply finishScan_headingOf|].
  apply scanLoop_titled. now left.
Qed.

End Headings.

(** [first_heading_wins] on a section with text before its two headings. *)
Lemma first_heading_wins_witness :
  exists g,
    parseSection asciiToLower ("intro" ++ nl ++ "# Must fix" ++ nl ++ "# Other")
      1 = Some g /\
    headingOf g =
      ("Must fix", inferCategory asciiToLower "Must fix",
       inferPriority asciiToLower "Must fix").
Proof.
  apply (first_heading_wins asciiToLower _ 1 ["intro"] "# Must fix"
           ["# Other"] "Must fix").
  - reflexivity.
  - repeat constructor.
  - reflexivity.
Defined.

(** ** Rules, code blocks and examples *)

(** A list line starts with a star, a dash or a plus, so it is neither a
    heading nor a fence. *)
Lemma listItem_not_heading_nor_fence (line item : string) :
  regexp.listRegex_FindStringSubmatch line = Some item ->
  regexp.headerRegex_FindStringSubmatch line = None /\
  strings.HasPrefix line fence = false.
Proof.
  destruct line as [|c line]; [discriminate|].
  unfold strings.HasPrefix, fence. cbn [String.prefix].
  intros H. split.
  - destruct (Ascii.eqb_spec c "#") as [->|Hc]; [discriminate H|].
    simpl. apply Ascii.eqb_neq in Hc. now rewrite Hc.
  - destruct (ascii_dec "`" c) as [<-|]; [discriminate H | reflexivity].
Qed.

Lemma storeContent_unclassified (ToLower : string -> string)
    (content : string) (e : GuidelineExample.t) :
  classify ToLower (GuidelineExample.Title e) = None ->
  storeContent ToLower content e = e.
Proof.
  unfold classify, storeContent.
  destruct (_ || _ || _); [discriminate|].
  destruct (_ || _ || _); [discriminate | reflexivity].
Qed.

Section Scanning.

Variable ToLower : string -> string.

Lemma scan_listItem (st : scan) (l : string) :
  inCodeBlock st = false -> isListItem l = true ->
  scanLine ToLower st l =
  mkScan (appendRule (guideline st) (ruleOf l))
    (currentContent st) false (currentExample st).
Proof.
  intros Hout Hl. unfold isListItem in Hl. unfold scanLine, ruleOf.
  destruct (regexp.listRegex_FindStringSubmatch (strings.TrimSpace l))
    as [item|] eqn:E; [|discriminate].
  destruct (listItem_not_heading_nor_fence _ _ E) as [-> ->].
  now rewrite Hout.
Qed.

(** Outside a code block, list lines become the rules of the guideline,
    trimmed and in the order of the lines, and change nothing else but
    the list of rules. *)
Theorem list_lines_become_rules (st : scan) (items : list string) :
  inCodeBlock st = false ->
  Forall (fun l => isListItem l = true) items ->
  let st' := fold_left (scanLine ToLower) items st in
  Guideline.Rules (guideline st') =
    (Guideline.Rules (guideline st) ++ map ruleOf items)%list /\
  headingOf (guideline st') = headingOf (guideline st) /\
  Guideline.Description (guideline st') =
    Guideline.Description (guideline st) /\
  Guideline.Examples (guideline st') = Guideline.Examples (guideline st) /\
  currentExample st' = currentExample st /\
  inCodeBlock st' = false.
Proof.
  intros Hout Hitems. revert st Hout.
  induction Hitems as [|l items Hl _ IH]; intros st Hout; simpl.
  - rewrite app_nil_r. auto 10.
  - rewrite (scan_listItem st l Hout Hl).
    destruct (IH (mkScan (appendRule (guideline st) (ruleOf l))
                    (currentContent st) false (currentExample st)) eq_refl)
      as (H1 & H2 & H3 & H4 & H5 & H6).
    simpl in *. rewrite H1, <- app_assoc. auto 10.
Qed.

(** Content, rules, description and examples across the lines between
    two fences. *)
Lemma scan_body_guideline (st : scan) (body : list string) :
  inCodeBlock st = true ->
  forallb (fun l => negb (isFence l)) body = true ->
  let st' := fold_left (scanLine ToLower) body st in
  currentContent st' = currentContent st ++ blockContent body /\
  inCodeBlock st' = true /\
  currentExample st' = currentExample st /\
  Guideline.Rules (guideline st') = Guideline.Rules (guideline st) /\
  Guideline.Description (guideline st') =
    Guideline.Description (guideline st) /\
  Guideline.Examples (guideline st') = Guideline.Examples (guideline st).
Proof.
  revert st; induction body as [|l body IH]; intros st Hin Hb; simpl.
  - unfold blockContent; simpl. rewrite append_nil_r. auto 10.
  - simpl in Hb. apply andb_true_iff in Hb as [Hl Hb].
    apply negb_true_iff in Hl. unfold isFence in Hl.
    assert (Hstep :
      currentContent (scanLine ToLower st l) =
        currentContent st ++
        (if isHeading l then "" else strings.TrimSpace l ++ nl) /\
      inCodeBlock (scanLine ToLower st l) = true /\
      currentExample (scanLine ToLower st l) = currentExample st /\
      Guideline.Rules (guideline (scanLine ToLower st l)) =
        Guideline.Rules (guideline st) /\
      Guideline.Description (guideline (scanLine ToLower st l)) =
        Guideline.Description (guideline st) /\
      Guideline.Examples (guideline (scanLine ToLower st l)) =
        Guideline.Examples (guideline st)).
    { unfold scanLine, isHeading, regexp.headerRegex_MatchString.
      destruct (regexp.headerRegex_FindStringSubmatch (strings.TrimSpace l)).
      - destruct (isEmpty _); simpl; rewrite append_nil_r; auto 10.
      - rewrite Hl, Hin. simpl. auto 10. }
    destruct Hstep as (S1 & S2 & S3 & S4 & S5 & S6).
    destruct (IH _ S2 Hb) as (I1 & I2 & I3 & I4 & I5 & I6).
    rewrite I1, I3, I4, I5, I6, S1, S3, S4, S5, S6, append_assoc.
    repeat split; try assumption.
    f_equal. unfold blockContent. simpl.
    destruct (isHeading l); simpl; [reflexivity|].
    now rewrite append_assoc.
Qed.

(** Across any lines, title, category and priority are those of the
    first heading line if the guideline had no title, and are unchanged
    otherwise. *)
Lemma scanLoop_firstHeading (lines : list string) (st : scan) :
  headingOf (guideline (fold_left (scanLine ToLower) lines st)) =
  match firstHeading lines with
  | Some title =>
      if isEmpty (Guideline.Title (guideline st))
      then (title, inferCategory ToLower title, inferPriority ToLower title)
      else headingOf (guideline st)
  | None => headingOf (guideline st)
  end.
Proof.
  revert st; induction lines as [|l lines IH]; intros st; simpl;
    [reflexivity|].
  rewrite IH. pose proof (scanLine_headingOf ToLower st l) as E.
  destruct (regexp.headerRegex_FindStringSubmatch (strings.TrimSpace l))
    as [title|] eqn:Hl.
  - destruct (isEmpty (Guideline.Title (guideline st))) eqn:Ht.
    + assert (Hnew : Guideline.Title (guideline (scanLine ToLower st l)) =
                     title).
      { unfold headingOf in E. now injection E. }
      pose proof (heading_capture_nonempty _ _ Hl) as Hne.
      rewrite Hnew.
      destruct title as [|c title]; [contradiction|]. simpl.
      now destruct (firstHeading lines).
    + assert (Hsame : Guideline.Title (guideline (scanLine ToLower st l)) =
                      Guideline.Title (guideline st)).
      { unfold headingOf in E. now injection E. }
      rewrite Hsame, Ht. now destruct (firstHeading lines).
  - assert (Hsame : Guideline.Title (guideline (scanLine ToLower st l)) =
                    Guideline.Title (guideline st)).
    { unfold headingOf in E. now injection E. }
    now rewrite Hsame, E.
Qed.

(** Between its fences a code block accumulates its lines: each is
    appended trimmed and newline terminated, and none becomes a rule, the
    description or an example.  The heading pattern is tested first, also
    inside a block: the lines it matches are left out of the content, and
    the first of them gives the guideline its title, category and
    priority if it has no title yet; otherwise these three stay as they
    were. *)
Theorem code_lines_only_accumulate (st : scan) (body : list string) :
  inCodeBlock st = true ->
  forallb (fun l => negb (isFence l)) body = true ->
  let st' := fold_left (scanLine ToLower) body st in
  currentContent st' = currentContent st ++ blockContent body /\
  inCodeBlock st' = true /\
  currentExample st' = currentExample st /\
  Guideline.Rules (guideline st') = Guideline.Rules (guideline st) /\
  Guideline.Description (guideline st') =
    Guideline.Description (guideline st) /\
  Guideline.Examples (guideline st') = Guideline.Examples (guideline st) /\
  Guideline.ID (guideline st') = Guideline.ID (guideline st) /\
  headingOf (guideline st') =
    match firstHeading body with
    | Some title =>
        if isEmpty (Guideline.Title (guideline st))
        then (title, inferCategory ToLower title,
              inferPriority ToLower title)
        else headingOf (guideline st)
    | None => headingOf (guideline st)
    end.
Proof.
  intros Hin Hb.
  destruct (scan_body_guideline st body Hin Hb)
    as (H1 & H2 & H3 & H4 & H5 & H6).
  simpl. repeat (split; [assumption|]).
  split; [apply scanLoop_ID | apply scanLoop_firstHeading].
Qed.

Lemma scanLine_unlabelled (st : scan) (l : string) :
  classify ToLower "Code Example" = None ->
  isExampleHeader ToLower l = false ->
  unlabelled st -> unlabelled (scanLine ToLower st l).
Proof.
  intros Hdrop Hl [Hex Hcur]. unfold unlabelled.
  unfold isExampleHeader, isHeading, isFence, isListItem,
    regexp.headerRegex_MatchString in Hl.
  unfold scanLine.
  destruct (regexp.headerRegex_FindStringSubmatch (strings.TrimSpace l)).
  { destruct (isEmpty _); simpl; auto. }
  destruct (strings.HasPrefix (strings.TrimSpace l) fence).
  { destruct (inCodeBlock st); simpl; (split; [assumption|]).
    - destruct (currentExample st) as [e|]; simpl; [|exact I].
      simpl in Hcur. destruct Hcur as (Ht & Hg & Hb).
      rewrite storeContent_unclassified; [auto | now rewrite Ht].
    - destruct (currentExample st) as [e|]; simpl; auto. }
  destruct (inCodeBlock st); [simpl; auto|].
  destruct (regexp.listRegex_FindStringSubmatch (strings.TrimSpace l)).
  { simpl; auto. }
  simpl in Hl. rewrite Hl.
  destruct (nonEmpty _ && isEmpty _); [simpl; auto|].
  destruct (currentExample st) as [e|] eqn:Ecur;
    [|rewrite Ecur; simpl; auto].
  destruct (nonEmpty _ && isEmpty _); simpl;
    [auto | rewrite Ecur; simpl; auto].
Qed.

Lemma scanLoop_unlabelled (lines : list string) (st : scan) :
  classify ToLower "Code Example" = None ->
  Forall (fun l => isExampleHeader ToLower l = false) lines ->
  unlabelled st -> unlabelled (fold_left (scanLine ToLower) lines st).
Proof.
  intros Hdrop H. revert st.
  induction H as [|l lines Hl _ IH]; intros st Hst; simpl;
    [assumption | now apply IH, scanLine_unlabelled].
Qed.

(** A code block is recorded only under an example header.  Where
    lowering [Code Example] yields none of the tested words, a section
    none of whose lines is an example header gives a guideline without
    examples, whatever code blocks it holds. *)
Theorem no_example_without_header (section : string) (id : nat) :
  classify ToLower "Code Example" = None ->
  Forall (fun l => isExampleHeader ToLower l = false)
         (strings.Split section NL) ->
  exists g,
    parseSection ToLower section id = Some g /\ Guideline.Examples g = [].
Proof.
  intros Hdrop Hlines. unfold parseSection.
  destruct (Nat.eqb _ 0) eqn:E.
  { apply Nat.eqb_eq in E.
    destruct (strings.Split section NL) eqn:S; [|discriminate].
    now destruct (Split_not_nil section NL). }
  eexists. split; [reflexivity|].
  destruct (scanLoop_unlabelled _ (initScan id) Hdrop Hlines) as [Hex Hcur].
  { split; [reflexivity | exact I]. }
  unfold finishScan, flushExample.
  destruct (currentExample _) as [e|].
  - simpl in Hcur. destruct Hcur as (_ & -> & ->). simpl.
    now destruct (isEmpty _ && nonEmpty _).
  - now destruct (isEmpty _ && nonEmpty _).
Qed.

End Scanning.

(** [list_lines_become_rules] on the two list lines of the spec's test. *)
Lemma list_lines_become_rules_witness :
  let st' := fold_left (scanLine asciiToLower)
               ["- no-any"; "- prefer-const"] (initScan 1) in
  Guideline.Rules (guideline st') =
    (Guideline.Rules (guideline (initScan 1)) ++
       map ruleOf ["- no-any"; "- prefer-const"])%list /\
  headingOf (guideline st') = headingOf (guideline (initScan 1)) /\
  Guideline.Description (guideline st') =
    Guideline.Description (guideline (initScan 1)) /\
  Guideline.Examples (guideline st') =
    Guideline.Examples (guideline (initScan 1)) /\
  currentExample st' = currentExample (initScan 1) /\
  inCodeBlock st' = false.
Proof.
  apply (list_lines_become_rules asciiToLower (initScan 1)
           ["- no-any"; "- prefer-const"]).
  - reflexivity.
  - repeat constructor.
Defined.

(** [code_lines_only_accumulate] after an opening fence: a list line, a
    heading line and a plain line inside the block. *)
Lemma code_lines_only_accumulate_witness :
  let st := scanLine asciiToLower (initScan 1) "```" in
  let body := ["- item"; "# comment"; " x = 1 "] in
  let st' := fold_left (scanLine asciiToLower) body st in
  currentContent st' = currentContent st ++ blockContent body /\
  inCodeBlock st' = true /\
  currentExample st' = currentExample st /\
  Guideline.Rules (guideline st') = Guideline.Rules (guideline st) /\
  Guideline.Description (guideline st') =
    Guideline.Description (guideline st) /\
  Guideline.Examples (guideline st') = Guideline.Examples (guideline st) /\
  Guideline.ID (guideline st') = Guideline.ID (guideline st) /\
  headingOf (guideline st') =
    match firstHeading body with
    | Some title =>
        if isEmpty (Guideline.Title (guideline st))
        then (title, inferCategory asciiToLower title,
              inferPriority asciiToLower title)
        else headingOf (guideline st)
    | None => headingOf (guideline st)
    end.
Proof.
  apply (code_lines_only_accumulate asciiToLower
           (scanLine asciiToLower (initScan 1) "```")
           ["- item"; "# comment"; " x = 1 "]); reflexivity.
Defined.

(** [no_example_without_header] on a heading followed by a code block. *)
Lemma no_example_without_header_witness :
  exists g,
    parseSection asciiToLower
      ("## Naming" ++ nl ++ "```" ++ nl ++ "let x = 1" ++ nl ++ "```") 1 =
      Some g /\
    Guideline.Examples g = [].
Proof.
  apply (no_example_without_header asciiToLower).
  - reflexivity.
  - match goal with
    | |- Forall _ ?l => let l' := eval vm_compute in l in change l with l'
    end.
    repeat constructor.
Defined.

(** [dont_title_stored_as_good] on the title of [dontDoc]. *)
Lemma dont_title_stored_as_good_witness :
  storeContent asciiToLower ("x" ++ nl)
    (GuidelineExample.withTitle "Don't Example") =
  setGood (GuidelineExample.withTitle "Don't Example")
    (strings.TrimSpace ("x" ++ nl)).
Proof.
  apply (dont_title_stored_as_good asciiToLower ("x" ++ nl)
           (GuidelineExample.withTitle "Don't Example")).
  reflexivity.
Defined.

(** ** The validator on any set and on parsed sets *)

Lemma ValidateGuidelines_snd (gs : GuidelineSet.t) :
  snd (ValidateGuidelines gs) =
  ((if isEmpty (GuidelineSet.Name gs)
    then ["Guideline set name is empty"] else []) ++
   (if Nat.eqb (List.length (GuidelineSet.Guidelines gs)) 0
    then ["No guidelines found in the set"] else []) ++
   perGuideline 1 (GuidelineSet.Guidelines gs))%list.
Proof.
  unfold ValidateGuidelines. simpl. rewrite validateLoop_spec.
  destruct (isEmpty _), (Nat.eqb _ 0); reflexivity.
Qed.

Lemma app_nil_both {A : Type} (l1 l2 : list A) :
  (l1 ++ l2)%list = [] <-> l1 = [] /\ l2 = [].
Proof.
  split; [apply app_eq_nil | now intros [-> ->]].
Qed.

Lemma guidelineWarnings_nil (n : nat) (g : Guideline.t) :
  guidelineWarnings n g = [] <-> complete g.
Proof.
  unfold guidelineWarnings, complete.
  destruct (Guideline.Title g), (Guideline.Description g),
    (Guideline.Rules g), (Guideline.Examples g); simpl;
    intuition (try discriminate; try congruence).
Qed.

Lemma perGuideline_nil (gl : list Guideline.t) (n : nat) :
  perGuideline n gl = [] <-> Forall complete gl.
Proof.
  revert n; induction gl as [|g gl IH]; intros n; simpl.
  - split; [constructor | reflexivity].
  - rewrite app_nil_both, guidelineWarnings_nil, IH. split.
    + intros [H1 H2]. now constructor.
    + intros H. now inversion H.
Qed.

(** The validator returns no warning exactly for a named set with at
    least one guideline, all of whose guidelines have a title, a
    description, and a rule or an example. *)
Theorem validator_silent_iff (gs : GuidelineSet.t) :
  snd (ValidateGuidelines gs) = [] <->
  GuidelineSet.Name gs <> "" /\ GuidelineSet.Guidelines gs <> [] /\
  Forall complete (GuidelineSet.Guidelines gs).
Proof.
  rewrite ValidateGuidelines_snd, !app_nil_both, perGuideline_nil.
  destruct (GuidelineSet.Name gs), (GuidelineSet.Guidelines gs); simpl;
    intuition (try discriminate; try congruence).
Qed.

Lemma guidelineWarnings_prefix (n : nat) (g : Guideline.t) (w : string) :
  In w (guidelineWarnings n g) -> exists rest, w = "Guideline " ++ rest.
Proof.
  unfold guidelineWarnings. rewrite !in_app_iff.
  intros [H|[H|H]].
  - destruct (isEmpty _); [|contradiction]. destruct H as [<-|[]]. eauto.
  - destruct (isEmpty _); [|contradiction]. destruct H as [<-|[]]. eauto.
  - destruct (Guideline.Rules g), (Guideline.Examples g);
      try contradiction. destruct H as [<-|[]]. eauto.
Qed.

Lemma perGuideline_prefix (gl : list Guideline.t) (n : nat) (w : string) :
  In w (perGuideline n gl) -> exists rest, w = "Guideline " ++ rest.
Proof.
  revert n; induction gl as [|g gl IH]; intros n; simpl; [contradiction|].
  rewrite in_app_iff. intros [H|H];
    [eapply guidelineWarnings_prefix, H | eapply IH, H].
Qed.

Section ParseThenValidate.

Variable ToLower : string -> string.

(** A guideline without description has no title either: the title
    stands in for a missing description. *)
Lemma parseSection_described (section : string) (n : nat)
    (g : Guideline.t) :
  parseSection ToLower section n = Some g ->
  Guideline.Description g = "" -> Guideline.Title g = "".
Proof.
  unfold parseSection. destruct (Nat.eqb _ 0); [discriminate|].
  intros [= <-]. unfold finishScan.
  set (g := flushExample _ _).
  destruct (isEmpty (Guideline.Description g)) eqn:Ed;
    destruct (nonEmpty (Guideline.Title g)) eqn:Et; simpl.
  - intros H. rewrite H in Et. discriminate.
  - intros _. now apply nonEmpty_false.
  - intros H. rewrite H in Ed. discriminate.
  - intros _. now apply nonEmpty_false.
Qed.

(** Validating what [ParseGuidelines] returns: the set is never reported
    as holding no guidelines, and a guideline reported without
    description is one without title. *)
Theorem parsed_set_validation (now content name kind : string) :
  exists gs,
    ParseGuidelines ToLower now content name kind = (Some gs, None) /\
    ~ In "No guidelines found in the set" (snd (ValidateGuidelines gs)) /\
    Forall (fun g => Guideline.Description g = "" -> Guideline.Title g = "")
           (GuidelineSet.Guidelines gs).
Proof.
  unfold ParseGuidelines. eexists. split; [reflexivity|]. split.
  - rewrite ValidateGuidelines_snd.
    cbn [GuidelineSet.Name GuidelineSet.Guidelines].
    assert (Hne : parseContent ToLower content <> []).
    { unfold parseContent. rewrite parseContentLoop_emitted. simpl.
      pose proof (splitIntoSections_not_nil content) as Hs.
      unfold numbered.
      destruct (splitIntoSections content) as [|s secs]; [contradiction|].
      simpl. unfold emitted at 1. simpl.
      destruct (parseSection_total ToLower s 1) as [g ->]. discriminate. }
    destruct (parseContent ToLower content) as [|g gl] eqn:E;
      [contradiction|].
    rewrite !in_app_iff. intros [H|[H|H]].
    + destruct (isEmpty name); [|contradiction].
      destruct H as [H|[]]. discriminate.
    + contradiction.
    + apply perGuideline_prefix in H as [rest H]. discriminate.
  - cbn [GuidelineSet.Guidelines].
    unfold parseContent. rewrite parseContentLoop_emitted. simpl.
    apply Forall_flat_map, Forall_forall. intros [i s] _.
    unfold emitted; simpl.
    destruct (parseSection ToLower s (i + 1)) eqn:E; constructor;
      [|constructor].
    now apply (parseSection_described s (i + 1)).
Qed.

End ParseThenValidate.

(** ** [readFileContent] *)

Lemma readLoop_unlines (tokens : list string) (builder : string) :
  fold_left (fun b text => b ++ text ++ nl) tokens builder =
  builder ++ unlines tokens.
Proof.
  revert builder; induction tokens as [|t tokens IH]; intros b; simpl.
  - now rewrite append_nil_r.
  - now rewrite IH, unlines_cons, !append_assoc.
Qed.

(** Reading normalises line ends and loses no line: when the scanner
    ends without error, splitting the content at newlines gives back the
    scanned lines, followed by one empty line; when it ends with an
    error, the error is returned and the content read so far is not. *)
Theorem readFileContent_lines (tokens : list string) :
  Forall (fun l => regexp.noNewline l = true) tokens ->
  (exists content,
     readFileContent tokens None = (content, None) /\
     strings.Split content NL = (tokens ++ [""])%list) /\
  (forall err, readFileContent tokens (Some err) = ("", Some err)).
Proof.
  intros H. split; [|reflexivity].
  unfold readFileContent. eexists. split; [reflexivity|].
  rewrite readLoop_unlines. simpl. now apply Split_of_unlines.
Qed.

Lemma readFileContent_lines_witness :
  (exists content,
     readFileContent ["# Title"; ""; "- rule"] None = (content, None) /\
     strings.Split content NL = (["# Title"; ""; "- rule"] ++ [""])%list) /\
  (forall err,
     readFileContent ["# Title"; ""; "- rule"] (Some err) = ("", Some err)).
Proof.
  apply (readFileContent_lines ["# Title"; ""; "- rule"]).
  repeat constructor.
Defined.


(** ** The analyzer on a guideline set *)

Lemma applyRules_spec (code : string) (gs : GuidelineSet.t)
    (g : Guideline.t) (rules : list string) (imps : list Improvement.t) :
  fold_left (applyRule code gs g) rules imps =
  (imps ++ map (fun _ => guidelineImprovement gs g)
             (filter (strings.Contains code) rules))%list.
Proof.
  revert imps; induction rules as [|r rules IH]; intros imps; simpl.
  - now rewrite app_nil_r.
  - rewrite IH. unfold applyRule.
    destruct (strings.Contains code r); simpl; [|reflexivity].
    now rewrite <- app_assoc.
Qed.

Lemma applyLoop_spec (code : string) (gs : GuidelineSet.t)
    (gl : list Guideline.t) (imps : list Improvement.t) :
  fold_left
    (fun improvements guideline =>
       fold_left (applyRule code gs guideline)
         (Guideline.Rules guideline) improvements) gl imps =
  (imps ++ flat_map (reported code gs) gl)%list.
Proof.
  revert imps; induction gl as [|g gl IH]; intros imps; simpl.
  - now rewrite app_nil_r.
  - rewrite IH, applyRules_spec. unfold reported at 2.
    now rewrite <- app_assoc.
Qed.

(** [applyGuidelines] reports one improvement for every pair of a
    guideline of the set and one of its rules that occurs in the code, in
    the order of the guidelines and of their rules (a guideline matched by
    several rules is reported as many times), and nothing else. *)
Theorem applyGuidelines_reports (code : string) (gs : GuidelineSet.t) :
  applyGuidelines code gs =
    flat_map (reported code gs) (GuidelineSet.Guidelines gs) /\
  (forall imp,
     In imp (applyGuidelines code gs) <->
     exists g rule,
       In g (GuidelineSet.Guidelines gs) /\
       In rule (Guideline.Rules g) /\
       strings.Contains code rule = true /\
       imp = guidelineImprovement gs g).
Proof.
  assert (E : applyGuidelines code gs =
              flat_map (reported code gs) (GuidelineSet.Guidelines gs)).
  { unfold applyGuidelines. now rewrite applyLoop_spec. }
  split; [exact E|]. intros imp. rewrite E, in_flat_map. split.
  - intros (g & Hg & Himp). unfold reported in Himp.
    apply in_map_iff in Himp as (rule & <- & Hrule).
    apply filter_In in Hrule as [Hin Hc]. eauto 10.
  - intros (g & rule & Hg & Hin & Hc & ->).
    exists g. split; [assumption|]. unfold reported.
    apply in_map_iff. exists rule. split; [reflexivity|].
    now apply filter_In.
Qed.

(** ** The summary counters *)

Lemma countPriority_classified (t : tally) (imp : Improvement.t) :
  classified (countPriority t imp) =
  classified t + (if knownPriority imp then 1 else 0).
Proof.
  unfold countPriority, knownPriority, classified.
  destruct (String.eqb _ "high"); simpl; [lia|].
  destruct (String.eqb _ "medium"); simpl; [lia|].
  destruct (String.eqb _ "low"); simpl; lia.
Qed.

Lemma tallyLoop_classified (imps : list Improvement.t) (t : tally) :
  classified (fold_left countPriority imps t) =
  classified t + List.length (filter knownPriority imps).
Proof.
  revert t; induction imps as [|imp imps IH]; intros t; simpl; [lia|].
  rewrite IH, countPriority_classified.
  destruct (knownPriority imp); simpl; lia.
Qed.

Lemma filter_all {A : Type} (f : A -> bool) (l : list A) :
  Forall (fun x => f x = true) l -> filter f l = l.
Proof.
  induction 1 as [|x l Hx _ IH]; simpl; [reflexivity|].
  now rewrite Hx, IH.
Qed.

Lemma priorities_known (gs : GuidelineSet.t) (g : Guideline.t) :
  In (Guideline.Priority g) priorities ->
  knownPriority (guidelineImprovement gs g) = true.
Proof.
  unfold knownPriority, priorities. simpl.
  intros [<-|[<-|[<-|[]]]]; reflexivity.
Qed.

Section ParseThenAnalyze.

Variable ToLower : string -> string.

Lemma parseContent_Forall (P : Guideline.t -> Prop) (content : string) :
  (forall section n g, parseSection ToLower section n = Some g -> P g) ->
  Forall P (parseContent ToLower content).
Proof.
  intros H. unfold parseContent. rewrite parseContentLoop_emitted. simpl.
  apply Forall_flat_map, Forall_forall. intros [i s] _.
  unfold emitted; simpl.
  destruct (parseSection ToLower s (i + 1)) eqn:E; constructor;
    [eapply H, E | constructor].
Qed.

(** The three counters of the summary never exceed the number of
    improvements (an improvement with another priority is in the total
    and in no class); on the improvements that [applyGuidelines] reports
    from a parsed set they add up to the total. *)
Theorem summary_counts (code now content name kind : string) :
  (forall imps,
     classified (tallyPriorities imps) <= List.length imps) /\
  exists gs,
    ParseGuidelines ToLower now content name kind = (Some gs, None) /\
    classified (tallyPriorities (applyGuidelines code gs)) =
    List.length (applyGuidelines code gs).
Proof.
  split.
  - intros imps. unfold tallyPriorities.
    rewrite tallyLoop_classified. unfold classified at 1. simpl.
    apply filter_length_le.
  - unfold ParseGuidelines. eexists. split; [reflexivity|].
    unfold tallyPriorities. rewrite tallyLoop_classified.
    unfold classified at 1. simpl. f_equal. apply filter_all.
    unfold applyGuidelines. rewrite applyLoop_spec. simpl.
    apply Forall_flat_map.
    cbn [GuidelineSet.Guidelines].
    eapply Forall_impl;
      [|apply (parseContent_Forall
                 (fun g => In (Guideline.Priority g) priorities))].
    + intros g Hg. unfold reported. apply Forall_map, Forall_forall.
      intros _ _. now apply priorities_known.
    + intros section n g Hg.
      now destruct (parseSection_inferred ToLower section n g Hg).
Qed.

End ParseThenAnalyze.

(** ** Trimming, and the rules of a guideline *)

Lemma list_ascii_of_string_app (a b : string) :
  list_ascii_of_string (a ++ b) =
  (list_ascii_of_string a ++ list_ascii_of_string b)%list.
Proof. induction a as [|c a IH]; simpl; [reflexivity | now rewrite IH]. Qed.

Lemma string_of_list_ascii_app (l1 l2 : list ascii) :
  string_of_list_ascii (l1 ++ l2) =
  string_of_list_ascii l1 ++ string_of_list_ascii l2.
Proof. induction l1 as [|c l1 IH]; simpl; [reflexivity | now rewrite IH]. Qed.

Lemma reverse_app (a b : string) :
  strings.reverse (a ++ b) = strings.reverse b ++ strings.reverse a.
Proof.
  unfold strings.reverse.
  now rewrite list_ascii_of_string_app, rev_app_distr,
    string_of_list_ascii_app.
Qed.

Lemma reverse_involutive (s : string) :
  strings.reverse (strings.reverse s) = s.
Proof.
  unfold strings.reverse.
  now rewrite list_ascii_of_string_of_list_ascii, rev_involutive,
    string_of_list_ascii_of_string.
Qed.

Lemma trimFront_step (fwd : bool) (s : string) :
  strings.trimFront fwd s =
  match stripRune fwd s with
  | Some s' => strings.trimFront fwd s'
  | None => s
  end.
Proof.
  destruct s as [|c1 [|c2 [|c3 t3]]]; simpl; try reflexivity.
  - now destruct (strings.asciiSpace c1).
  - destruct (strings.asciiSpace c1); [reflexivity|].
    now destruct (if fwd then _ else _).
  - destruct (strings.asciiSpace c1); [reflexivity|].
    destruct (if fwd then strings.space2 c1 c2 else _); [reflexivity|].
    now destruct (if fwd then _ else _).
Qed.

(** A stripped rune is one to three bytes at the front. *)
Lemma stripRune_rune (fwd : bool) (s s' : string) :
  stripRune fwd s = Some s' ->
  exists rune, s = rune ++ s' /\ rune <> "" /\
               stripRune fwd rune = Some "".
Proof.
  destruct s as [|c1 t1]; simpl; [discriminate|].
  destruct (strings.asciiSpace c1) eqn:E1.
  { intros [= <-]. exists (String c1 ""). simpl. rewrite E1.
    repeat split. discriminate. }
  destruct t1 as [|c2 t2]; [discriminate|].
  destruct (if fwd then strings.space2 c1 c2 else _) eqn:E2.
  { intros [= <-]. exists (String c1 (String c2 "")). simpl.
    rewrite E1, E2. repeat split. discriminate. }
  destruct t2 as [|c3 t3]; [discriminate|].
  destruct (if fwd then strings.space3 c1 c2 c3 else _) eqn:E3;
    [|discriminate].
  intros [= <-]. exists (String c1 (String c2 (String c3 ""))). simpl.
  rewrite E1, E2, E3. repeat split. discriminate.
Qed.

Lemma append_length (a b : string) :
  String.length (a ++ b) = String.length a + String.length b.
Proof. induction a as [|c a IH]; simpl; [reflexivity | now rewrite IH]. Qed.

Lemma stripRune_shorter (fwd : bool) (s s' : string) :
  stripRune fwd s = Some s' -> String.length s' < String.length s.
Proof.
  intros H. destruct (stripRune_rune _ _ _ H) as (rune & -> & Hne & _).
  rewrite append_length. destruct rune; [contradiction | simpl; lia].
Qed.

(** Whether a rune is stripped is decided by the bytes of the rune. *)
Lemma stripRune_app (fwd : bool) (s s' rest : string) :
  stripRune fwd s = Some s' ->
  stripRune fwd (s ++ rest) = Some (s' ++ rest).
Proof.
  destruct s as [|c1 t1]; simpl; [discriminate|].
  destruct (strings.asciiSpace c1); [now intros [= <-]|].
  destruct t1 as [|c2 t2]; [discriminate|]. simpl.
  destruct (if fwd then strings.space2 c1 c2 else _); [now intros [= <-]|].
  destruct t2 as [|c3 t3]; [discriminate|]. simpl.
  destruct (if fwd then strings.space3 c1 c2 c3 else _);
    [now intros [= <-] | discriminate].
Qed.

Lemma trimFront_facts (fwd : bool) (n : nat) (s : string) :
  String.length s < n ->
  stripRune fwd (strings.trimFront fwd s) = None /\
  exists front, s = front ++ strings.trimFront fwd s.
Proof.
  revert s; induction n as [|n IH]; intros s Hn; [lia|].
  rewrite trimFront_step.
  destruct (stripRune fwd s) as [s'|] eqn:E.
  - pose proof (stripRune_shorter _ _ _ E) as Hlt.
    destruct (IH s' ltac:(lia)) as [H1 (front & H2)].
    split; [assumption|].
    destruct (stripRune_rune _ _ _ E) as (rune & -> & _).
    exists (rune ++ front). now rewrite append_assoc, <- H2.
  - split; [assumption | now exists ""].
Qed.

(** What [trimFront] returns has no white-space rune at its front, and
    is the end of what it was given. *)
Lemma trimFront_clean (fwd : bool) (s : string) :
  stripRune fwd (strings.trimFront fwd s) = None.
Proof. apply (trimFront_facts fwd (S (String.length s))). lia. Qed.

Lemma trimFront_suffix (fwd : bool) (s : string) :
  exists front, s = front ++ strings.trimFront fwd s.
Proof. apply (trimFront_facts fwd (S (String.length s))). lia. Qed.

(** A rune stripped from the front reading forwards is stripped from the
    front of the reversed string reading backwards. *)
Lemma stripRune_reverse (rune : string) :
  stripRune true rune = Some "" ->
  stripRune false (strings.reverse rune) <> None.
Proof.
  destruct rune as [|c1 [|c2 [|c3 [|c4 t]]]]; simpl; try discriminate.
  - destruct (strings.asciiSpace c1); discriminate.
  - destruct (strings.asciiSpace c1); [discriminate|].
    destruct (strings.space2 c1 c2) eqn:E; [|discriminate].
    intros _. unfold strings.reverse. simpl. rewrite ?E.
    destruct (strings.asciiSpace c2); discriminate.
  - destruct (strings.asciiSpace c1); [discriminate|].
    destruct (strings.space2 c1 c2); [discriminate|].
    destruct (strings.space3 c1 c2 c3) eqn:E; [|discriminate].
    intros _. unfold strings.reverse. simpl. rewrite ?E.
    destruct (strings.asciiSpace c3); [discriminate|].
    destruct (strings.space2 c2 c3); discriminate.
  - destruct (strings.asciiSpace c1); [discriminate|].
    destruct (strings.space2 c1 c2); [discriminate|].
    destruct (strings.space3 c1 c2 c3); discriminate.
Qed.

(** A non-empty string that trimming on the left consumes whole ends
    with a white-space rune. *)
Lemma all_space_ends_with_space (n : nat) (s : string) :
  String.length s < n -> s <> "" ->
  strings.trimFront true s = "" ->
  stripRune false (strings.reverse s) <> None.
Proof.
  revert s; induction n as [|n IH]; intros s Hn Hne; [lia|].
  rewrite trimFront_step.
  destruct (stripRune true s) as [s'|] eqn:E; [|now intros ->].
  intros Htrim.
  pose proof (stripRune_shorter _ _ _ E) as Hlt.
  destruct (stripRune_rune _ _ _ E) as (rune & -> & _ & Hrune).
  rewrite reverse_app.
  destruct s' as [|c s'].
  - simpl. now apply stripRune_reverse.
  - assert (H : stripRune false (strings.reverse (String c s')) <> None).
    { apply IH; [lia | discriminate | assumption]. }
    destruct (stripRune false (strings.reverse (String c s'))) as [x|] eqn:Ex;
      [|contradiction].
    now rewrite (stripRune_app _ _ _ _ Ex).
Qed.

Lemma spacesThenText_suffix (s cap : string) :
  regexp.spacesThenText s = Some cap -> exists front, s = front ++ cap.
Proof.
  revert cap; induction s as [|c s IH]; intros cap; simpl; [discriminate|].
  destruct (regexp.isSpace c); [|discriminate].
  destruct (regexp.spacesThenText s) as [cap'|].
  - intros [= <-]. destruct (IH cap' eq_refl) as [front ->].
    now exists (String c front).
  - destruct s as [|c' s']; simpl; [discriminate|].
    destruct (_ && _); [|discriminate].
    intros [= <-]. now exists (String c "").
Qed.

(** The text of a list line, trimmed, is never empty: the line was
    trimmed before the pattern was applied, so the captured text ends
    with a character that is no white space. *)
Lemma rule_nonempty (rawLine item : string) :
  regexp.listRegex_FindStringSubmatch (strings.TrimSpace rawLine) =
    Some item ->
  strings.TrimSpace item <> "".
Proof.
  intros H.
  assert (Hsuffix : exists front,
             strings.TrimSpace rawLine = front ++ item /\ item <> "").
  { unfold regexp.listRegex_FindStringSubmatch in H.
    destruct (strings.TrimSpace rawLine) as [|c t]; [discriminate|].
    destruct (_ || _ || _); [|discriminate].
    destruct (spacesThenText_suffix _ _ H) as [front ->].
    exists (String c front). split; [reflexivity|].
    eapply spacesThenText_nonempty, H. }
  destruct Hsuffix as (front & Ht & Hitem).
  assert (Hclean :
    stripRune false (strings.reverse (strings.TrimSpace rawLine)) = None).
  { unfold strings.TrimSpace at 1, strings.TrimRight.
    rewrite reverse_involutive. apply trimFront_clean. }
  rewrite Ht, reverse_app in Hclean.
  unfold strings.TrimSpace, strings.TrimRight, strings.TrimLeft.
  destruct (trimFront_suffix true item) as [lead Hlead].
  set (v := strings.trimFront true item) in *.
  assert (Hv : v <> "").
  { intros Ev.
    destruct (stripRune false (strings.reverse item)) as [x|] eqn:Ex.
    - rewrite (stripRune_app _ _ _ _ Ex) in Hclean. discriminate.
    - apply (all_space_ends_with_space (S (String.length item)) item);
        [lia | assumption | exact Ev | exact Ex]. }
  assert (Hrv : stripRune false (strings.reverse v) = None).
  { destruct (stripRune false (strings.reverse v)) as [x|] eqn:Ex;
      [|reflexivity].
    rewrite Hlead, reverse_app, append_assoc in Hclean.
    rewrite (stripRune_app _ _ _ _ Ex) in Hclean. discriminate. }
  rewrite trimFront_step, Hrv, reverse_involutive. exact Hv.
Qed.

Section Rules.

Variable ToLower : string -> string.

Lemma scanLine_rules (st : scan) (l : string) :
  Forall (fun r => r <> "") (Guideline.Rules (guideline st)) ->
  Forall (fun r => r <> "")
         (Guideline.Rules (guideline (scanLine ToLower st l))).
Proof.
  intros H. unfold scanLine.
  destruct (regexp.headerRegex_FindStringSubmatch (strings.TrimSpace l)).
  { now destruct (isEmpty _). }
  destruct (strings.HasPrefix (strings.TrimSpace l) fence).
  { now destruct (inCodeBlock st). }
  destruct (inCodeBlock st); [assumption|].
  destruct (regexp.listRegex_FindStringSubmatch (strings.TrimSpace l))
    as [item|] eqn:E.
  { simpl. apply Forall_app. split; [assumption|].
    constructor; [|constructor]. eapply rule_nonempty, E. }
  unfold flushExample.
  repeat match goal with
         | |- context [match ?x with _ => _ end] => destruct x eqn:?
         end; assumption.
Qed.

Lemma scanLoop_rules (lines : list string) (st : scan) :
  Forall (fun r => r <> "") (Guideline.Rules (guideline st)) ->
  Forall (fun r => r <> "")
    (Guideline.Rules (guideline (fold_left (scanLine ToLower) lines st))).
Proof.
  revert st; induction lines as [|l lines IH]; intros st H; simpl;
    [assumption | apply IH, scanLine_rules, H].
Qed.

(** No rule of a parsed guideline is the empty string (which
    [strings.Contains] would find in any code). *)
Theorem rules_never_empty (content : string) :
  Forall (fun g => Forall (fun r => r <> "") (Guideline.Rules g))
         (parseContent ToLower content).
Proof.
  apply parseContent_Forall. intros section n g.
  unfold parseSection. destruct (Nat.eqb _ 0); [discriminate|].
  intros [= <-].
  pose proof (scanLoop_rules (strings.Split section NL) (initScan n)
                ltac:(constructor)) as H.
  unfold finishScan, flushExample.
  repeat match goal with
         | |- context [match ?x with _ => _ end] => destruct x eqn:?
         end; exact H.
Qed.

End Rules.


(** ** The description *)

Section Describing.

Variable ToLower : string -> string.

Lemma scanLine_description_kept (st : scan) (l : string) :
  Guideline.Description (guideline st) <> "" ->
  Guideline.Description (guideline (scanLine ToLower st l)) =
  Guideline.Description (guideline st).
Proof.
  intros H. unfold scanLine.
  destruct (regexp.headerRegex_FindStringSubmatch (strings.TrimSpace l)).
  { now destruct (isEmpty _). }
  destruct (strings.HasPrefix (strings.TrimSpace l) fence).
  { now destruct (inCodeBlock st). }
  destruct (inCodeBlock st); [reflexivity|].
  destruct (regexp.listRegex_FindStringSubmatch (strings.TrimSpace l));
    [reflexivity|].
  destruct (mentionsExample ToLower (strings.TrimSpace l)).
  { unfold flushExample. simpl.
    destruct (currentExample st); [|reflexivity].
    now destruct (_ || _). }
  destruct (isEmpty (Guideline.Description (guideline st))) eqn:E.
  { now apply isEmpty_true in E. }
  rewrite andb_false_r.
  destruct (currentExample st); [|reflexivity].
  now destruct (_ && _).
Qed.

Lemma scanLoop_description_kept (lines : list string) (st : scan) :
  Guideline.Description (guideline st) <> "" ->
  Guideline.Description (guideline (fold_left (scanLine ToLower) lines st)) =
  Guideline.Description (guideline st).
Proof.
  revert st; induction lines as [|l lines IH]; intros st H; simpl;
    [reflexivity|].
  pose proof (scanLine_description_kept st l H) as E.
  rewrite IH, E; [reflexivity | now rewrite E].
Qed.

(** The description is the first line of plain text met outside a code
    block, trimmed: no later line of the section and nothing at the end of
    the scan changes it. *)
Theorem description_is_first_plain_line (st : scan) (l : string)
    (post : list string) :
  inCodeBlock st = false ->
  Guideline.Description (guideline st) = "" ->
  isPlainText ToLower l = true ->
  Guideline.Description
    (finishScan (fold_left (scanLine ToLower) (l :: post) st)) =
  strings.TrimSpace l.
Proof.
  intros Hout Hd Hl. unfold isPlainText in Hl.
  apply andb_true_iff in Hl as [Hl Hne].
  apply andb_true_iff in Hl as [Hl Hm].
  apply andb_true_iff in Hl as [Hl Hi].
  apply andb_true_iff in Hl as [Hh Hf].
  apply negb_true_iff in Hh, Hf, Hi, Hm.
  unfold isHeading, regexp.headerRegex_MatchString in Hh.
  unfold isFence in Hf. unfold isListItem in Hi.
  assert (Hstep : Guideline.Description (guideline (scanLine ToLower st l)) =
                  strings.TrimSpace l).
  { unfold scanLine.
    destruct (regexp.headerRegex_FindStringSubmatch (strings.TrimSpace l));
      [discriminate|].
    rewrite Hf, Hout.
    destruct (regexp.listRegex_FindStringSubmatch (strings.TrimSpace l));
      [discriminate|].
    rewrite Hm, Hne, Hd. reflexivity. }
  assert (Hset : strings.TrimSpace l <> "") by now apply nonEmpty_true.
  simpl.
  set (st' := fold_left (scanLine ToLower) post (scanLine ToLower st l)).
  assert (Hloop : Guideline.Description (guideline st') =
                  strings.TrimSpace l).
  { unfold st'. rewrite scanLoop_description_kept; rewrite Hstep; auto. }
  unfold finishScan.
  assert (Hflush : Guideline.Description
                     (flushExample (currentExample st') (guideline st')) =
                   strings.TrimSpace l).
  { unfold flushExample. destruct (currentExample st'); [|assumption].
    now destruct (_ || _). }
  destruct (isEmpty _) eqn:E; [|simpl; assumption].
  apply isEmpty_true in E. congruence.
Qed.

End Describing.

Lemma description_is_first_plain_line_witness :
  Guideline.Description
    (finishScan
       (fold_left (scanLine asciiToLower)
          ("  Use PascalCase. " :: ["More text"; "# Naming"])
          (initScan 1))) =
  strings.TrimSpace "  Use PascalCase. ".
Proof.
  apply (description_is_first_plain_line asciiToLower (initScan 1)
           "  Use PascalCase. " ["More text"; "# Naming"]);
    reflexivity.
Defined.

(** ** Sections are whole lines *)

Lemma groupLine_concat (st : list (list string) * list string)
    (line : string) :
  concat (fst (groupLine st line) ++ [snd (groupLine st line)]) =
  (concat (fst st ++ [snd st]) ++ [line])%list.
Proof.
  destruct st as [G C]. unfold groupLine. simpl.
  destruct C as [|c C]; simpl.
  - rewrite !concat_app. simpl. now rewrite !app_nil_r.
  - destruct (splitsHere line); simpl; rewrite !concat_app; simpl;
      rewrite ?concat_app; simpl; rewrite ?app_nil_r, <- ?app_assoc;
      reflexivity.
Qed.

Lemma groupLoop_concat (lines : list string)
    (st : list (list string) * list string) :
  concat (fst (fold_left groupLine lines st) ++
          [snd (fold_left groupLine lines st)]) =
  (concat (fst st ++ [snd st]) ++ lines)%list.
Proof.
  revert st; induction lines as [|l lines IH]; intros st; simpl.
  - now rewrite app_nil_r.
  - now rewrite IH, groupLine_concat, <- app_assoc.
Qed.

(** C1, as amended: for every input, the sections concatenated in order
    are the input followed by one newline, and the sections are made of
    whole lines: cutting the lines of the input into consecutive non-empty
    runs and writing every line of a run verbatim, followed by a newline,
    gives the sections, so that no line is cut, altered, dropped or left
    without its newline. *)
Theorem splitIntoSections_keeps_lines (content : string) :
  concatAll (splitIntoSections content) = content ++ nl /\
  exists runs : list (list string),
    concat runs = strings.Split content NL /\
    Forall (fun run => run <> []) runs /\
    splitIntoSections content = map unlines runs.
Proof.
  split.
  - rewrite splitIntoSections_written, splitLoop_written.
    unfold written; simpl. apply Split_unlines.
  - destruct (splitIntoSections_groups content) as [Hsecs Hne].
    set (st := fold_left groupLine (strings.Split content NL) ([], []))
      in *.
    exists (fst st ++ [snd st])%list. split; [|split].
    + unfold st. now rewrite groupLoop_concat.
    + assert (Hst : grouped st).
      { apply groupLoop_grouped; [|apply Split_noNewline].
        unfold grouped. simpl. repeat split; auto. intros []. reflexivity. }
      destruct (grouped_all st Hst Hne) as [Hok _].
      eapply Forall_impl; [|exact Hok]. now intros g (Hg & _).
    + exact Hsecs.
Qed.

(** ** Identifiers and section ordinals *)

Section Ordinals.

Variable ToLower : string -> string.

(** C5, as amended: the guidelines are what the numbered sections emit,
    in order; every section yields a guideline, named [guideline_<n>] for
    the ordinal [n] it is parsed under; hence there are as many
    guidelines as sections and the identifiers are [guideline_1] ...
    [guideline_N] without gap. *)
Theorem guideline_ids_by_ordinal (content : string) :
  parseContent ToLower content =
    flat_map (emitted ToLower) (numbered (splitIntoSections content)) /\
  (forall section n,
      exists g, parseSection ToLower section n = Some g /\
                Guideline.ID g = "guideline_" ++ itoa n) /\
  List.length (parseContent ToLower content) =
    List.length (splitIntoSections content) /\
  map Guideline.ID (parseContent ToLower content) =
    map (fun k => "guideline_" ++ itoa (k + 1))
        (seq 0 (List.length (splitIntoSections content))).
Proof.
  assert (Hids : map Guideline.ID (parseContent ToLower content) =
                 map (fun k => "guideline_" ++ itoa (k + 1))
                   (seq 0 (List.length (splitIntoSections content)))).
  { unfold parseContent. rewrite parseContentLoop_emitted. simpl.
    apply emitted_IDs. }
  split; [|split; [|split]].
  - unfold parseContent. now rewrite parseContentLoop_emitted.
  - intros section n.
    destruct (parseSection_total ToLower section n) as [g Hg].
    exists g. split; [assumption | eapply parseSection_ID, Hg].
  - rewrite <- (length_map Guideline.ID), Hids, length_map.
    apply length_seq.
  - exact Hids.
Qed.

End Ordinals.

(** C5, as stated, fails: no section, not even the empty string, yields
    no guideline, and no document has identifiers that differ from
    [guideline_1] ... [guideline_N], [N] the number of its guidelines; so
    identifiers never have gaps. *)
Lemma no_section_skipped_no_gap :
  parseSection asciiToLower "" 1 <> None /\
  ~ (exists ToLower section n, parseSection ToLower section n = None) /\
  ~ (exists ToLower content,
       map Guideline.ID (parseContent ToLower content) <>
       map (fun k => "guideline_" ++ itoa (k + 1))
           (seq 0 (List.length (parseContent ToLower content)))).
Proof.
  split; [discriminate|]. split.
  - intros (ToLower & section & n & H).
    destruct (parseSection_total ToLower section n) as [g Hg]. congruence.
  - intros (ToLower & content & H). apply H.
    assert (Hids : map Guideline.ID (parseContent ToLower content) =
                   map (fun k => "guideline_" ++ itoa (k + 1))
                     (seq 0 (List.length (splitIntoSections content)))).
    { unfold parseContent. rewrite parseContentLoop_emitted. simpl.
      apply emitted_IDs. }
    rewrite Hids at 1. do 2 f_equal.
    rewrite <- (length_map Guideline.ID (parseContent ToLower content)),
      Hids, length_map.
    symmetry. apply length_seq.
Qed.

(** ** The last code block in the returned guideline *)

Section LastBlock.

Variable ToLower : string -> string.






End LastBlock.

